(** * tubesync: the entity-lifecycle reconciler ([sync/signals.py])

    A shallow embedding of the signal receivers of [sync/signals.py] and of
    the part of Django's [Model.save] / [Model.delete] dispatch they rely on,
    followed by the properties of the reconciler.

    The receivers run against a [World]: the persisted [Source] and [Media]
    rows, the registered media servers, the pending entries of the Task
    Registry, the files on disk and the connection state of the
    [post_save] receiver for Media.  A receiver takes the in-memory instance
    and the world and returns both, as the Python code mutates both. *)

From Stdlib Require Import ZArith Ascii String.
From stdpp Require Import gmap strings list fin_maps.

Local Open Scope string_scope.
Local Open Scope list_scope.
Local Open Scope Z_scope.

(** ** Python values *)

(** The double quote character, used by the [verbose_name] templates. *)
Definition dquote : string := String (ascii_of_nat 34) EmptyString.

(** [_('... "{}"').format(arg)] for the templates of this file, which all end
    in a quoted placeholder. *)
Definition format (template_prefix arg : string) : string :=
  template_prefix +:+ dquote +:+ arg +:+ dquote.

(** Truth value of a nullable text value ([None] and [''] are false). *)
Definition truthy (v : option string) : bool :=
  match v with
  | Some s => negb (bool_decide (s = ""))
  | None => false
  end.

(** ** Data model *)

Inductive SourceType :=
| SOURCE_TYPE_YOUTUBE_CHANNEL
| SOURCE_TYPE_YOUTUBE_CHANNEL_ID
| SOURCE_TYPE_YOUTUBE_PLAYLIST.

#[global] Instance SourceType_eq_dec : EqDecision SourceType.
Proof. solve_decision. Defined.

Module Source.
Record t := mk {
  pk : string;
  name : string;
  source_type : SourceType;
  index_schedule : Z;
  copy_channel_images : bool;
  download_media : bool;
  delete_files_on_disk : bool;
  has_failed : bool
}.

Definition set_has_failed (b : bool) (s : t) : t :=
  mk (pk s) (name s) (source_type s) (index_schedule s)
     (copy_channel_images s) (download_media s) (delete_files_on_disk s) b.
End Source.

Module Media.
(** [source] is the related Source object as the instance holds it;
    [media_file] and [thumb] are the paths of the file fields. *)
Record t := mk {
  pk : string;
  source : Source.t;
  name : string;
  url : string;
  metadata : option string;
  skip : bool;
  manual_skip : bool;
  can_download : bool;
  downloaded : bool;
  media_file : option string;
  thumb : option string
}.

Definition set_skip (b : bool) (m : t) : t :=
  mk (pk m) (source m) (name m) (url m) (metadata m) b (manual_skip m)
     (can_download m) (downloaded m) (media_file m) (thumb m).
Definition set_can_download (b : bool) (m : t) : t :=
  mk (pk m) (source m) (name m) (url m) (metadata m) (skip m) (manual_skip m)
     b (downloaded m) (media_file m) (thumb m).
Definition set_downloaded (b : bool) (m : t) : t :=
  mk (pk m) (source m) (name m) (url m) (metadata m) (skip m) (manual_skip m)
     (can_download m) b (media_file m) (thumb m).
Definition set_media_file (f : option string) (m : t) : t :=
  mk (pk m) (source m) (name m) (url m) (metadata m) (skip m) (manual_skip m)
     (can_download m) (downloaded m) f (thumb m).
Definition set_thumb (f : option string) (m : t) : t :=
  mk (pk m) (source m) (name m) (url m) (metadata m) (skip m) (manual_skip m)
     (can_download m) (downloaded m) (media_file m) f.
End Media.

Module MediaServer.
(** [repr] is the text [str(mediaserver)] renders. *)
Record t := mk { pk : string; repr : string }.
End MediaServer.

(** [str(instance.pk)]: primary keys are UUIDs, kept as their canonical text. *)
Definition str (pk : string) : string := pk.

(** A pending entry of the Task Registry ([background_task.models.Task]). *)
Record Task := mkTask {
  task_name : string;
  task_args : list string;
  queue : option string;
  priority : Z;
  repeat : Z;
  verbose_name : string
}.

#[global] Instance Source_eq_dec : EqDecision Source.t.
Proof. solve_decision. Defined.
#[global] Instance Media_eq_dec : EqDecision Media.t.
Proof. solve_decision. Defined.
#[global] Instance Task_eq_dec : EqDecision Task.
Proof. solve_decision. Defined.

(** What a receiver did to its collaborators, in order. *)
Inductive Event :=
| EvCancel (kind : string) (args : list string)
| EvEnqueue (t : Task) (remove_existing_tasks : bool)
| EvSaveSource (s : Source.t)
| EvSaveMedia (m : Media.t)
| EvDeleteMedia (pk : string)
| EvDeleteFile (path : string).

#[global] Instance Event_eq_dec : EqDecision Event.
Proof. solve_decision. Defined.

Record World := mkWorld {
  sources : gmap string Source.t;
  medias : gmap string Media.t;
  mediaservers : list MediaServer.t;
  tasks : list Task;
  files : gset string;
  media_post_save_connected : bool;
  trace : list Event
}.

Definition set_sources (x : gmap string Source.t) (w : World) : World :=
  mkWorld x (medias w) (mediaservers w) (tasks w) (files w)
          (media_post_save_connected w) (trace w).
Definition set_medias (x : gmap string Media.t) (w : World) : World :=
  mkWorld (sources w) x (mediaservers w) (tasks w) (files w)
          (media_post_save_connected w) (trace w).
Definition set_tasks (x : list Task) (w : World) : World :=
  mkWorld (sources w) (medias w) (mediaservers w) x (files w)
          (media_post_save_connected w) (trace w).
Definition set_files (x : gset string) (w : World) : World :=
  mkWorld (sources w) (medias w) (mediaservers w) (tasks w) x
          (media_post_save_connected w) (trace w).
Definition set_connected (x : bool) (w : World) : World :=
  mkWorld (sources w) (medias w) (mediaservers w) (tasks w) (files w)
          x (trace w).
Definition emit (e : Event) (w : World) : World :=
  mkWorld (sources w) (medias w) (mediaservers w) (tasks w) (files w)
          (media_post_save_connected w) (trace w ++ [e]).

(** ** The Task Registry ([sync/tasks.py] over [background_task]) *)

(** Modelled from the spec: the Task Registry of [sync/tasks.py] and
    [background_task], whose code is not part of the sources at hand.  It is
    a store of pending jobs addressed by the key (job kind, arguments, the
    first argument being the id of the target entity); cancelling removes
    the pending entries of a key, and an enqueue with
    [remove_existing_tasks] supersedes them. *)
Definition has_key (kind : string) (args : list string) (t : Task) : bool :=
  bool_decide (task_name t = kind) && bool_decide (task_args t = args).

(** Modelled from the spec: the pending jobs of a key (lookup by key). *)
Definition pending (kind : string) (args : list string) (ts : list Task) : list Task :=
  List.filter (has_key kind args) ts.

(** Modelled from the spec: the registry without the pending jobs of a key
    (cancel by key). *)
Definition drop_task (kind : string) (args : list string) (ts : list Task) : list Task :=
  List.filter (fun t => negb (has_key kind args t)) ts.

(** Modelled from the spec: calling a function of [sync/tasks.py] decorated
    as a background task enqueues a job of that kind; nothing is run. *)
Definition schedule (kind : string) (args : list string) (queue : option string)
    (priority repeat : Z) (verbose_name : string) (remove_existing_tasks : bool)
    (w : World) : World :=
  let t := mkTask kind args queue priority repeat verbose_name in
  let ts := if remove_existing_tasks then drop_task kind args (tasks w) else tasks w in
  emit (EvEnqueue t remove_existing_tasks) (set_tasks (ts ++ [t]) w).

(** Modelled from the spec: [delete_task_by_source] cancels the pending jobs
    of a kind keyed by the source id. *)
Definition delete_task_by_source (kind : string) (source_id : string) (w : World) : World :=
  emit (EvCancel kind [str source_id])
       (set_tasks (drop_task kind [str source_id] (tasks w)) w).

(** Modelled from the spec: [delete_task_by_media] cancels the pending jobs
    of a kind with the given arguments. *)
Definition delete_task_by_media (kind : string) (args : list string) (w : World) : World :=
  emit (EvCancel kind args) (set_tasks (drop_task kind args (tasks w)) w).

(** Modelled from the spec: [get_media_metadata_task] looks up the pending
    metadata-fetch job of a Media item. *)
Definition get_media_metadata_task (media_id : string) (w : World) : option Task :=
  head (pending "sync.tasks.download_media_metadata" [str media_id] (tasks w)).

(** [Task.NEVER], the [repeat] of a one-shot job. *)
Definition NEVER : Z := 0.

(** The background tasks of [sync/tasks.py] the receivers call, each under
    the name of its function; a task called without [queue] has none. *)

Definition index_source_task (source_id : string) (repeat : Z) (queue : string)
    (priority : Z) (verbose_name : string) (remove_existing_tasks : bool) :=
  schedule "sync.tasks.index_source_task" [source_id] (Some queue) priority repeat
           verbose_name remove_existing_tasks.

Definition check_source_directory_exists (source_id : string) (priority : Z)
    (verbose_name : string) :=
  schedule "sync.tasks.check_source_directory_exists" [source_id] None priority NEVER
           verbose_name false.

Definition download_source_images (source_id : string) (priority : Z)
    (verbose_name : string) :=
  schedule "sync.tasks.download_source_images" [source_id] None priority NEVER
           verbose_name false.

Definition save_all_media_for_source (source_id : string) (priority : Z)
    (verbose_name : string) (remove_existing_tasks : bool) :=
  schedule "sync.tasks.save_all_media_for_source" [source_id] None priority NEVER
           verbose_name remove_existing_tasks.

Definition download_media_metadata (media_id : string) (priority : Z)
    (verbose_name : string) (remove_existing_tasks : bool) :=
  schedule "sync.tasks.download_media_metadata" [media_id] None priority NEVER
           verbose_name remove_existing_tasks.

Definition download_media_thumbnail (media_id url : string) (queue : string)
    (priority : Z) (verbose_name : string) (remove_existing_tasks : bool) :=
  schedule "sync.tasks.download_media_thumbnail" [media_id; url] (Some queue) priority
           NEVER verbose_name remove_existing_tasks.

Definition download_media (media_id : string) (queue : string) (priority : Z)
    (verbose_name : string) (remove_existing_tasks : bool) :=
  schedule "sync.tasks.download_media" [media_id] (Some queue) priority NEVER
           verbose_name remove_existing_tasks.

Definition rescan_media_server (mediaserver_id : string) (priority : Z)
    (verbose_name : string) (remove_existing_tasks : bool) :=
  schedule "sync.tasks.rescan_media_server" [mediaserver_id] None priority NEVER
           verbose_name remove_existing_tasks.

(** An entity a failed job resolves to. *)
Inductive Instance :=
| ISource (s : Source.t)
| IMedia (m : Media.t).

(** Modelled from the spec: [map_task_to_instance] resolves a job back to the
    entity it targeted by decoding its kind and first argument; the jobs
    this file enqueues for a Source resolve to that Source, those for a
    Media item to that item, any other job to nothing.  The second
    component of the Python result (a URL) is not used by the receiver. *)
Definition map_task_to_instance (t : Task) (w : World) : option Instance :=
  let kind := task_name t in
  match task_args t with
  | [] => None
  | id :: _ =>
      if bool_decide (kind ∈ ["sync.tasks.index_source_task";
                              "sync.tasks.check_source_directory_exists";
                              "sync.tasks.download_source_images";
                              "sync.tasks.save_all_media_for_source"])
      then ISource <$> sources w !! id
      else if bool_decide (kind ∈ ["sync.tasks.download_media_metadata";
                                   "sync.tasks.download_media_thumbnail";
                                   "sync.tasks.download_media"])
      then IMedia <$> medias w !! id
      else None
  end.

(** ** The filesystem: [os.path.splitext], [glob.glob], [delete_file] *)

Definition chars (s : string) : list ascii := list_ascii_of_string s.

(** [p.rfind(c)], -1 when [c] does not occur. *)
Fixpoint rfind_from (c : ascii) (p : list ascii) (i : Z) (found : Z) : Z :=
  match p with
  | [] => found
  | x :: p' => rfind_from c p' (i + 1) (if Ascii.eqb x c then i else found)
  end.
Definition rfind (c : ascii) (p : string) : Z := rfind_from c (chars p) 0 (-1).

(** [p[i:j]] for [0 <= i]. *)
Definition slice (p : string) (i j : Z) : string :=
  substring (Z.to_nat i) (Z.to_nat (j - i)) p.

(** [os.path.splitext] on POSIX: split at the last dot of the last path
    component, unless that component has only leading dots before it. *)
Definition splitext (p : string) : string * string :=
  let sepIndex := rfind "/" p in
  let dotIndex := rfind "." p in
  if (sepIndex <? dotIndex)
     && existsb (fun c => negb (Ascii.eqb c "."))
                (chars (slice p (sepIndex + 1) dotIndex))
  then (slice p 0 dotIndex, slice p dotIndex (Z.of_nat (String.length p)))
  else (p, "").

(** [fnmatch]: a pattern is read into tokens.  [*] is any run of characters,
    [?] any one character, [[seq]] one character of [seq] ([[!seq]] one
    character not in it, [lo-hi] inside it a range), and a [[] that is never
    closed stands for itself. *)
Inductive Tok :=
| TStar
| TAny
| TClass (negated : bool) (items : list (ascii * ascii))
| TLit (c : ascii).

(** The items of a bracket expression, read left to right. *)
Fixpoint class_items (stuff : list ascii) : list (ascii * ascii) :=
  match stuff with
  | [] => []
  | lo :: rest =>
      match rest with
      | sep :: hi :: rest' =>
          if Ascii.eqb sep "-" then (lo, hi) :: class_items rest'
          else (lo, lo) :: class_items rest
      | _ => (lo, lo) :: class_items rest
      end
  end.

Definition in_class (c : ascii) (items : list (ascii * ascii)) : bool :=
  existsb (fun '(lo, hi) => (nat_of_ascii lo <=? nat_of_ascii c)%nat
                            && (nat_of_ascii c <=? nat_of_ascii hi)%nat) items.

(** The text up to the closing bracket, and what follows it. *)
Fixpoint until_close (p : list ascii) : option (list ascii * list ascii) :=
  match p with
  | [] => None
  | c :: p' =>
      if Ascii.eqb c "]" then Some ([], p')
      else (fun '(stuff, rest) => (c :: stuff, rest)) <$> until_close p'
  end.

(** The bracket expression opened just before [p]: a leading [!] and then a
    leading []] belong to it. *)
Definition bracket (p : list ascii) : option (list ascii * list ascii) :=
  let '(bang, p1) := match p with
                     | c :: p' => if Ascii.eqb c "!" then ([c], p') else ([], p)
                     | [] => ([], p)
                     end in
  let '(rb, p2) := match p1 with
                   | c :: p' => if Ascii.eqb c "]" then ([c], p') else ([], p1)
                   | [] => ([], p1)
                   end in
  (fun '(stuff, rest) => (bang ++ rb ++ stuff, rest)) <$> until_close p2.

Definition class_tok (stuff : list ascii) : Tok :=
  match stuff with
  | [] => TClass false []
  | c :: stuff' =>
      if Ascii.eqb c "!"
      then match stuff' with [] => TAny | _ => TClass true (class_items stuff') end
      else TClass false (class_items stuff)
  end.

(** [fnmatch.translate]; every step consumes a character, so a fuel of the
    length of the pattern reads all of it. *)
Fixpoint translate (fuel : nat) (pat : list ascii) : list Tok :=
  match fuel with
  | O => []
  | S fuel =>
      match pat with
      | [] => []
      | c :: rest =>
          if Ascii.eqb c "*" then TStar :: translate fuel rest
          else if Ascii.eqb c "?" then TAny :: translate fuel rest
          else if Ascii.eqb c "[" then
            match bracket rest with
            | None => TLit c :: translate fuel rest
            | Some (stuff, rest') => class_tok stuff :: translate fuel rest'
            end
          else TLit c :: translate fuel rest
      end
  end.

(** The whole of [name] against the tokens. *)
Fixpoint match_toks (ts : list Tok) (name : list ascii) : bool :=
  match ts with
  | [] => match name with [] => true | _ => false end
  | TStar :: ts' =>
      (fix star (s : list ascii) : bool :=
         match_toks ts' s || match s with [] => false | _ :: s' => star s' end) name
  | TAny :: ts' =>
      match name with _ :: s' => match_toks ts' s' | [] => false end
  | TClass negated items :: ts' =>
      match name with
      | c :: s' => xorb negated (in_class c items) && match_toks ts' s'
      | [] => false
      end
  | TLit c :: ts' =>
      match name with c' :: s' => Ascii.eqb c c' && match_toks ts' s' | [] => false end
  end.

Definition fnmatch (name pat : list ascii) : bool :=
  match_toks (translate (length pat) pat) name.

(** [glob.has_magic] and the rule for hidden names. *)
Definition has_magic (s : list ascii) : bool :=
  existsb (fun c => Ascii.eqb c "*" || Ascii.eqb c "?" || Ascii.eqb c "[") s.
Definition ishidden (s : list ascii) : bool :=
  match s with c :: _ => Ascii.eqb c "." | [] => false end.

(** The components of a path between its slashes. *)
Fixpoint split_path (p : list ascii) : list (list ascii) :=
  match p with
  | [] => [[]]
  | c :: p' =>
      if Ascii.eqb c "/" then [] :: split_path p'
      else match split_path p' with
           | comp :: comps => (c :: comp) :: comps
           | [] => [[c]]
           end
  end.

(** One component of a pattern against one entry of a directory: a
    component without magic names the entry, one with magic goes through
    [fnmatch] and does not yield hidden entries unless it is hidden too. *)
Definition component_match (pat name : list ascii) : bool :=
  if has_magic pat
  then (ishidden pat || negb (ishidden name)) && fnmatch name pat
  else bool_decide (pat = name).

Fixpoint components_match (pats names : list (list ascii)) : bool :=
  match pats, names with
  | [], [] => true
  | pat :: pats', name :: names' =>
      component_match pat name && components_match pats' names'
  | _, _ => false
  end.

Definition glob_match (pattern path : string) : bool :=
  components_match (split_path (chars pattern)) (split_path (chars path)).

(** [glob.glob(pattern)] over the files on disk (directories are not
    entries of [files], so none is listed). *)
Definition glob (pattern : string) (w : World) : list string :=
  List.filter (glob_match pattern) (elements (files w)).

(** [os.path.exists(path)]. *)
Definition file_exists (path : string) (w : World) : bool :=
  bool_decide (path ∈ files w).

(** Modelled from the spec: [delete_file] of [sync/utils.py] removes the
    file at [path]. *)
Definition delete_file (path : string) (w : World) : World :=
  emit (EvDeleteFile path) (set_files (files w ∖ {[ path ]}) w).

(** ** Persistence: [Model.save] and the receivers of [sync/signals.py] *)

Definition post_save_disconnect : World -> World := set_connected false.
Definition post_save_connect : World -> World := set_connected true.

(** The row of a Media item is written. *)
Definition write_media (instance : Media.t) (w : World) : World :=
  emit (EvSaveMedia instance)
       (set_medias (<[Media.pk instance := instance]> (medias w)) w).

(** The row of a Source is written. *)
Definition write_source (instance : Source.t) (w : World) : World :=
  emit (EvSaveSource instance)
       (set_sources (<[Source.pk instance := instance]> (sources w)) w).

(** [Media.save()]: the row is written, then [post_save] is sent to the
    receiver for Media when it is connected. *)
Definition Media_save (receiver : Media.t -> World -> option (Media.t * World))
    (instance : Media.t) (w : World) : option (Media.t * World) :=
  let w := write_media instance w in
  if media_post_save_connected w then receiver instance w else Some (instance, w).

(** Priorities of the jobs, as the receivers pass them. *)
Definition priority_check_source_directory_exists : Z := 0.
Definition priority_download_source_images : Z := 0.
Definition priority_index_source_task : Z := 5.
Definition priority_save_all_media_for_source : Z := 0.
Definition priority_download_media_metadata : Z := 5.
Definition priority_download_media_thumbnail : Z := 10.
Definition priority_download_media : Z := 15.
Definition priority_rescan_media_server : Z := 0.

(** Every priority of the table. *)
Definition priority_table : list Z :=
  [ priority_check_source_directory_exists; priority_download_source_images;
    priority_index_source_task; priority_save_all_media_for_source;
    priority_download_media_metadata; priority_download_media_thumbnail;
    priority_download_media; priority_rescan_media_server ].

(** [source_pre_save]: before a Source is saved, recreate its indexing job
    when the schedule has changed. *)
Definition source_pre_save (instance : Source.t) (w : World) : World :=
  match sources w !! Source.pk instance with
  | None => w
  | Some existing_source =>
      if bool_decide (Source.index_schedule existing_source ≠ Source.index_schedule instance)
      then
        let w := delete_task_by_source "sync.tasks.index_source_task" (Source.pk instance) w in
        let verbose_name := format "Index media from source " in
        index_source_task (str (Source.pk instance))
          (Source.index_schedule instance)
          (str (Source.pk instance))
          priority_index_source_task
          (verbose_name (Source.name instance))
          true w
      else w
  end.

(** [source_post_save]. *)
Definition source_post_save (instance : Source.t) (created : bool) (w : World) : World :=
  let w :=
    if created then
      let verbose_name := format "Check download directory exists for source " in
      let w := check_source_directory_exists (str (Source.pk instance))
                 priority_check_source_directory_exists
                 (verbose_name (Source.name instance)) w in
      let w :=
        if bool_decide (Source.source_type instance ≠ SOURCE_TYPE_YOUTUBE_PLAYLIST)
           && Source.copy_channel_images instance
        then download_source_images (str (Source.pk instance))
               priority_download_source_images
               (verbose_name (Source.name instance)) w
        else w in
      if 0 <? Source.index_schedule instance then
        let w := delete_task_by_source "sync.tasks.index_source_task" (Source.pk instance) w in
        let verbose_name := format "Index media from source " in
        index_source_task (str (Source.pk instance))
          (Source.index_schedule instance)
          (str (Source.pk instance))
          priority_index_source_task
          (verbose_name (Source.name instance))
          true w
      else w
    else w in
  let verbose_name := format "Checking all media for source " in
  save_all_media_for_source (str (Source.pk instance))
    priority_save_all_media_for_source
    (verbose_name (Source.name instance))
    true w.

(** [Source.save()]: [pre_save] is sent, the row is written (inserted when
    there was none), [post_save] is sent. *)
Definition Source_save (instance : Source.t) (w : World) : World :=
  let w := source_pre_save instance w in
  let created := bool_decide (sources w !! Source.pk instance = None) in
  let w := write_source instance w in
  source_post_save instance created w.

(** The recurring indexing job of a Source, as the Source rules enqueue it. *)
Definition index_job (instance : Source.t) : Task :=
  mkTask "sync.tasks.index_source_task" [str (Source.pk instance)]
         (Some (str (Source.pk instance)))
         priority_index_source_task (Source.index_schedule instance)
         (format "Index media from source " (Source.name instance)).

(** ** Concrete inputs

    Collaborators and worlds on which the rules are run below. *)

(** A Filter Engine that skips nothing, one that skips everything. *)
Definition keep_all (m : Media.t) : bool := false.
Definition skip_all (m : Media.t) : bool := true.

(** A format is found for every item with metadata; a thumbnail URL too. *)
Definition format_of_metadata (m : Media.t) : option string :=
  if truthy (Media.metadata m) then Some "137+140" else None.
Definition thumbnail_of_metadata (m : Media.t) : option string :=
  if truthy (Media.metadata m) then Some "https://i/1.jpg" else None.
Definition no_thumbnail (m : Media.t) : option string := None.

Definition channel : Source.t :=
  Source.mk "s1" "chan" SOURCE_TYPE_YOUTUBE_CHANNEL 3600 false true true false.

(** The channel with a new indexing schedule, about to be saved. *)
Definition rescheduled_channel : Source.t :=
  Source.mk "s1" "chan" SOURCE_TYPE_YOUTUBE_CHANNEL 7200 false true true false.

(** An item as the indexing job creates it: identity and source only. *)
Definition fresh_media : Media.t :=
  Media.mk "m1" channel "clip" "https://v/1" None false false false false None None.

(** The same item with metadata, not yet assessed. *)
Definition indexed_media : Media.t :=
  Media.mk "m1" channel "clip" "https://v/1" (Some "{}") false false false false None None.

(** The same item skipped by hand. *)
Definition pinned_media : Media.t :=
  Media.mk "m1" channel "clip" "https://v/1" (Some "{}") true true false false None None.

(** The item marked as downloaded, its media file gone from the disk. *)
Definition lost_media : Media.t :=
  Media.mk "m1" channel "clip" "https://v/1" (Some "{}") false false true true
           (Some "/d/clip.mp4") None.

(** Another item of the channel, as the indexing job creates it. *)
Definition other_media : Media.t :=
  Media.mk "m2" channel "talk" "https://v/2" None false false false false None None.

(** An item marked as downloaded and never assessed, whose media file and
    thumbnail have left the disk. *)
Definition stale_media : Media.t :=
  Media.mk "m1" channel "clip" "https://v/1" (Some "{}") false false false true
           (Some "/d/clip.mp4") (Some "/d/clip.jpg").

(** A job that checks the download directory of the channel, and the
    metadata-fetch, thumbnail and download jobs of the item. *)
Definition check_directory_task : Task :=
  mkTask "sync.tasks.check_source_directory_exists" ["s1"] None 0 0 "check".
Definition metadata_task : Task :=
  mkTask "sync.tasks.download_media_metadata" ["m1"] None 5 0 "metadata".
Definition thumbnail_task : Task :=
  mkTask "sync.tasks.download_media_thumbnail" ["m1"; "https://i/1.jpg"] (Some "s1") 10 0
         "thumbnail".
Definition download_task : Task :=
  mkTask "sync.tasks.download_media" ["m1"] (Some "s1") 15 0 "download".

(** An item whose file name has a bracketed tag, downloaded, and a disk
    that holds its media file, its info file and the media file of another
    item. *)
Definition bracket_media : Media.t :=
  Media.mk "m1" channel "a [HD]" "https://v/1" (Some "{}") false false true true
           (Some "/d/a [HD].mp4") None.
Definition bracket_world : World :=
  mkWorld {[ "s1" := channel ]} {[ "m1" := bracket_media ]} [] [download_task]
          {[ "/d/a [HD].mp4"; "/d/a [HD].info.json"; "/d/a H.mp4" ]} true [].

(** A Source about to be created, with indexing disabled. *)
Definition new_channel : Source.t :=
  Source.mk "s2" "fresh" SOURCE_TYPE_YOUTUBE_CHANNEL 0 false true false false.

(** Two media servers, and a world with the downloaded item, its sibling
    files and the file of another item. *)
Definition plex : MediaServer.t := MediaServer.mk "1" "plex".
Definition jellyfin : MediaServer.t := MediaServer.mk "2" "jellyfin".
Definition downloaded_media : Media.t :=
  Media.mk "m1" channel "clip" "https://v/1" (Some "{}") false false true true
           (Some "/d/clip.mp4") (Some "/t/clip.jpg").
Definition library_world : World :=
  mkWorld {[ "s1" := channel ]} {[ "m1" := downloaded_media ]} [plex; jellyfin]
          [download_task; thumbnail_task]
          {[ "/d/clip.mp4"; "/d/clip.en.vtt"; "/d/clip.info.json"; "/d/other.mp4" ]}
          true [].

Definition world_of (m : Media.t) : World :=
  mkWorld {[ "s1" := channel ]} {[ Media.pk m := m ]} [] [] ∅ true [].

Section Reconciler.

(** The collaborators of the Media rules, whose code is not at hand: the
    Filter Engine's verdict, the format specification derived for an item
    ([Media.get_format_str], false when there is none) and the source URL
    of its thumbnail ([Media.thumbnail]). *)
Variable should_skip : Media.t -> bool.
Variable get_format_str : Media.t -> option string.
Variable thumbnail : Media.t -> option string.

(** Modelled from the spec: [filter_media] of [sync/filtering.py] asks the
    Filter Engine whether the item should be skipped, updates [skip] when
    the verdict differs from the stored value and tells whether it did. *)
Definition filter_media (instance : Media.t) : Media.t * bool :=
  let verdict := should_skip instance in
  if bool_decide (Media.skip instance ≠ verdict)
  then (Media.set_skip verdict instance, true)
  else (instance, false).

(** Modelled from the spec: [Media.thumb_file_exists] and
    [Media.media_file_exists] tell whether the referenced file is on disk
    (there is none without a reference). *)
Definition thumb_file_exists (instance : Media.t) (w : World) : bool :=
  match Media.thumb instance with
  | Some path => truthy (Media.thumb instance) && file_exists path w
  | None => false
  end.
Definition media_file_exists (instance : Media.t) (w : World) : bool :=
  match Media.media_file instance with
  | Some path => truthy (Media.media_file instance) && file_exists path w
  | None => false
  end.

(** [media_post_save].  [fuel] bounds the depth of receivers run from
    within a save; one level is all the receiver needs, as its own save is
    made with the receiver disconnected ([media_post_save_total]). *)
Fixpoint media_post_save (fuel : nat) (instance : Media.t) (w : World)
    : option (Media.t * World) :=
  match fuel with
  | O => None
  | S fuel =>
      if Media.manual_skip instance then Some (instance, w) else
      let '(instance, skip_changed) :=
        if negb (Media.downloaded instance) && truthy (Media.metadata instance)
        then filter_media instance
        else (instance, false) in
      let '(instance, can_download_changed) :=
        if truthy (Media.metadata instance) then
          if truthy (get_format_str instance) then
            if negb (Media.can_download instance)
            then (Media.set_can_download true instance, true)
            else (instance, false)
          else
            if Media.can_download instance
            then (Media.set_can_download false instance, true)
            else (instance, false)
        else (instance, false) in
      '(instance, w) ←
        (if skip_changed || can_download_changed then
           let w := post_save_disconnect w in
           '(instance, w) ← Media_save (media_post_save fuel) instance w;
           Some (instance, post_save_connect w)
         else Some (instance, w));
      let w :=
        if negb (truthy (Media.metadata instance)) && negb (Media.skip instance)
           && negb (bool_decide (is_Some (get_media_metadata_task (Media.pk instance) w)))
        then
          let verbose_name := format "Downloading metadata for " in
          download_media_metadata (str (Media.pk instance))
            priority_download_media_metadata
            (verbose_name (Media.pk instance))
            true w
        else w in
      let instance :=
        if negb (thumb_file_exists instance w)
        then Media.set_thumb None instance else instance in
      let w :=
        if negb (truthy (Media.thumb instance)) && negb (Media.skip instance) then
          let thumbnail_url := thumbnail instance in
          if truthy thumbnail_url then
            let verbose_name := format "Downloading thumbnail for " in
            download_media_thumbnail (str (Media.pk instance))
              (default "" thumbnail_url)
              (str (Source.pk (Media.source instance)))
              priority_download_media_thumbnail
              (verbose_name (Media.name instance))
              true w
          else w
        else w in
      let instance :=
        if negb (media_file_exists instance w)
        then Media.set_media_file None (Media.set_downloaded false instance)
        else instance in
      let w :=
        if negb (Media.downloaded instance) && Media.can_download instance
           && negb (Media.skip instance)
           && Source.download_media (Media.source instance)
        then
          let w := delete_task_by_media "sync.tasks.download_media"
                     [str (Media.pk instance)] w in
          let verbose_name := format "Downloading media for " in
          download_media (str (Media.pk instance))
            (str (Source.pk (Media.source instance)))
            priority_download_media
            (verbose_name (Media.name instance))
            true w
        else w in
      Some (instance, w)
  end.

(** [task_task_failed]: a job has reached its maximum number of attempts. *)
Definition task_task_failed (fuel : nat) (completed_task : Task) (w : World)
    : option World :=
  let obj := map_task_to_instance completed_task w in
  let w :=
    match obj with
    | Some (ISource obj) => Source_save (Source.set_has_failed true obj) w
    | _ => w
    end in
  match obj with
  | Some (IMedia obj) =>
      if bool_decide (task_name completed_task = "sync.tasks.download_media_metadata")
      then
        '(_, w) ← Media_save (media_post_save fuel) (Media.set_skip true obj) w;
        Some w
      else Some w
  | _ => Some w
  end.

(** [media_pre_delete]: cancel the jobs of the item and, when the Source
    asks for it, delete its files. *)
Definition media_pre_delete (instance : Media.t) (w : World) : World :=
  let w := delete_task_by_media "sync.tasks.download_media"
             [str (Media.pk instance)] w in
  let thumbnail_url := thumbnail instance in
  let w :=
    if truthy thumbnail_url
    then delete_task_by_media "sync.tasks.download_media_thumbnail"
           [str (Media.pk instance); default "" thumbnail_url] w
    else w in
  if Source.delete_files_on_disk (Media.source instance)
     && (truthy (Media.media_file instance) || truthy (Media.thumb instance))
  then
    let filepath :=
      if truthy (Media.media_file instance)
      then default "" (Media.media_file instance)
      else default "" (Media.thumb instance) in
    let '(barefilepath, fileext) := splitext filepath in
    let all_related_files := glob (barefilepath +:+ ".*") w in
    foldl (fun w file => delete_file file w) w all_related_files
  else w.

(** [media_post_delete]: ask every media server for a rescan. *)
Definition media_post_delete (instance : Media.t) (w : World) : World :=
  foldl (fun w mediaserver =>
           let verbose_name := format "Request media server rescan for " in
           rescan_media_server (str (MediaServer.pk mediaserver))
             priority_rescan_media_server
             (verbose_name (MediaServer.repr mediaserver))
             true w)
        w (mediaservers w).

(** [Media.delete()]: [pre_delete] is sent, the row is removed,
    [post_delete] is sent. *)
Definition Media_delete (instance : Media.t) (w : World) : World :=
  let w := media_pre_delete instance w in
  let w := emit (EvDeleteMedia (Media.pk instance))
                (set_medias (delete (Media.pk instance) (medias w)) w) in
  media_post_delete instance w.

(** [source_pre_delete]: delete the Media of the Source one at a time. *)
Definition source_pre_delete (instance : Source.t) (w : World) : World :=
  foldl (fun w media => Media_delete media w) w
        (List.filter
           (fun media => bool_decide (Source.pk (Media.source media) = Source.pk instance))
           (map_to_list (medias w)).*2).

(** [source_post_delete]. *)
Definition source_post_delete (instance : Source.t) (w : World) : World :=
  delete_task_by_source "sync.tasks.index_source_task" (Source.pk instance) w.

(** ** The after-save rule, step by step

    The steps of [media_post_save] as functions of their own; the
    receiver is their composition ([media_post_save_steps]). *)

(** Steps 2 and 3: the instance with [skip] and [can_download] recomputed,
    and whether either changed. *)
Definition after_filter (instance : Media.t) : Media.t :=
  if negb (Media.downloaded instance) && truthy (Media.metadata instance)
  then (filter_media instance).1 else instance.

Definition skip_changed (instance : Media.t) : bool :=
  negb (Media.downloaded instance) && truthy (Media.metadata instance)
  && (filter_media instance).2.

Definition has_valid_format (instance : Media.t) : bool :=
  truthy (get_format_str instance).

Definition after_format (instance : Media.t) : Media.t :=
  if truthy (Media.metadata instance)
  then Media.set_can_download (has_valid_format instance) instance
  else instance.

Definition can_download_changed (instance : Media.t) : bool :=
  truthy (Media.metadata instance)
  && negb (bool_decide (Media.can_download instance = has_valid_format instance)).

Definition recomputed (instance : Media.t) : Media.t :=
  after_format (after_filter instance).

Definition needs_save (instance : Media.t) : bool :=
  skip_changed instance || can_download_changed (after_filter instance).

(** Step 4. *)
Definition corrective_save (instance : Media.t) (w : World) : World :=
  if needs_save instance
  then post_save_connect (write_media (recomputed instance) (post_save_disconnect w))
  else w.

(** Step 5. *)
Definition wants_metadata (instance : Media.t) (w : World) : bool :=
  negb (truthy (Media.metadata instance)) && negb (Media.skip instance)
  && negb (bool_decide (is_Some (get_media_metadata_task (Media.pk instance) w))).

Definition metadata_job (instance : Media.t) : Task :=
  mkTask "sync.tasks.download_media_metadata" [str (Media.pk instance)] None
         priority_download_media_metadata NEVER
         (format "Downloading metadata for " (Media.pk instance)).

Definition schedule_metadata (instance : Media.t) (w : World) : World :=
  if wants_metadata instance w
  then download_media_metadata (str (Media.pk instance))
         priority_download_media_metadata
         (format "Downloading metadata for " (Media.pk instance)) true w
  else w.

(** Step 6. *)
Definition normalize_thumb (instance : Media.t) (w : World) : Media.t :=
  if negb (thumb_file_exists instance w)
  then Media.set_thumb None instance else instance.

Definition schedule_thumbnail (instance : Media.t) (w : World) : World :=
  if negb (truthy (Media.thumb instance)) && negb (Media.skip instance) then
    if truthy (thumbnail instance)
    then download_media_thumbnail (str (Media.pk instance))
           (default "" (thumbnail instance))
           (str (Source.pk (Media.source instance)))
           priority_download_media_thumbnail
           (format "Downloading thumbnail for " (Media.name instance)) true w
    else w
  else w.

(** Step 7. *)
Definition normalize_media_file (instance : Media.t) (w : World) : Media.t :=
  if negb (media_file_exists instance w)
  then Media.set_media_file None (Media.set_downloaded false instance)
  else instance.

Definition eligible (instance : Media.t) : bool :=
  negb (Media.downloaded instance) && Media.can_download instance
  && negb (Media.skip instance)
  && Source.download_media (Media.source instance).

Definition download_job (instance : Media.t) : Task :=
  mkTask "sync.tasks.download_media" [str (Media.pk instance)]
         (Some (str (Source.pk (Media.source instance))))
         priority_download_media NEVER
         (format "Downloading media for " (Media.name instance)).

Definition schedule_download (instance : Media.t) (w : World) : World :=
  if eligible instance
  then download_media (str (Media.pk instance))
         (str (Source.pk (Media.source instance)))
         priority_download_media
         (format "Downloading media for " (Media.name instance)) true
         (delete_task_by_media "sync.tasks.download_media"
            [str (Media.pk instance)] w)
  else w.

(** The rule for an item that is not skipped by hand. *)
Definition reconcile (instance : Media.t) (w : World) : Media.t * World :=
  let m := recomputed instance in
  let w := corrective_save instance w in
  let w := schedule_metadata m w in
  let m := normalize_thumb m w in
  let w := schedule_thumbnail m w in
  let m := normalize_media_file m w in
  (m, schedule_download m w).

(** The rule run [n] times in succession on the instance it returns. *)
Fixpoint media_post_save_n (fuel n : nat) (instance : Media.t) (w : World)
    : option (Media.t * World) :=
  match n with
  | O => Some (instance, w)
  | S n =>
      '(instance, w) ← media_post_save fuel instance w;
      media_post_save_n fuel n instance w
  end.

(** ** Reading a trace *)

(** The events a receiver added in going from [w] to [w']. *)
Definition issued (w w' : World) : list Event :=
  drop (length (trace w)) (trace w').

(** The Media rows written, in order. *)
Definition media_rows_written (evs : list Event) : list Media.t :=
  omap (fun e => match e with EvSaveMedia m => Some m | _ => None end) evs.

(** The commands sent to the Task Registry, and those about one job kind. *)
Definition is_registry_command (e : Event) : bool :=
  match e with EvCancel _ _ | EvEnqueue _ _ => true | _ => false end.
Definition registry_commands (evs : list Event) : list Event :=
  List.filter is_registry_command evs.
Definition is_command_for (kind : string) (e : Event) : bool :=
  match e with
  | EvCancel k _ => bool_decide (k = kind)
  | EvEnqueue t _ => bool_decide (task_name t = kind)
  | _ => false
  end.
Definition commands_for (kind : string) (evs : list Event) : list Event :=
  List.filter (is_command_for kind) evs.

(** The events of each step of the rule. *)
Definition corrective_events (instance : Media.t) : list Event :=
  if needs_save instance then [EvSaveMedia (recomputed instance)] else [].

Definition metadata_events (instance : Media.t) (w : World) : list Event :=
  if wants_metadata instance w then [EvEnqueue (metadata_job instance) true] else [].

Definition thumbnail_job (instance : Media.t) : Task :=
  mkTask "sync.tasks.download_media_thumbnail"
         [str (Media.pk instance); default "" (thumbnail instance)]
         (Some (str (Source.pk (Media.source instance))))
         priority_download_media_thumbnail NEVER
         (format "Downloading thumbnail for " (Media.name instance)).

Definition wants_thumbnail (instance : Media.t) : bool :=
  negb (truthy (Media.thumb instance)) && negb (Media.skip instance)
  && truthy (thumbnail instance).

Definition thumbnail_events (instance : Media.t) : list Event :=
  if wants_thumbnail instance then [EvEnqueue (thumbnail_job instance) true] else [].

Definition download_events (instance : Media.t) : list Event :=
  if eligible instance
  then [EvCancel "sync.tasks.download_media" [str (Media.pk instance)];
        EvEnqueue (download_job instance) true]
  else [].


(** The jobs enqueued, in order. *)
Definition enqueued_jobs (evs : list Event) : list Task :=
  omap (fun e => match e with EvEnqueue t _ => Some t | _ => None end) evs.

(** The number of pending jobs of a kind for a Media item. *)
Definition pending_for (kind : string) (instance : Media.t) (w : World) : nat :=
  length (pending kind [str (Media.pk instance)] (tasks w)).

(** The world while the corrective write of the rule is in progress: the
    receiver has been disconnected, and the row is or is not written yet. *)
Definition during_corrective_write (instance : Media.t) (w : World)
    (written : bool) : World :=
  let w := post_save_disconnect w in
  if written then write_media (recomputed instance) w else w.

(** The rescan job of a media server, and the files the before-delete rule
    of Media looks for. *)
Definition rescan_job (mediaserver : MediaServer.t) : Task :=
  mkTask "sync.tasks.rescan_media_server" [str (MediaServer.pk mediaserver)] None
         priority_rescan_media_server NEVER
         (format "Request media server rescan for " (MediaServer.repr mediaserver)).

Definition related_files (instance : Media.t) (w : World) : list string :=
  if Source.delete_files_on_disk (Media.source instance)
     && (truthy (Media.media_file instance) || truthy (Media.thumb instance))
  then
    let filepath :=
      if truthy (Media.media_file instance)
      then default "" (Media.media_file instance)
      else default "" (Media.thumb instance) in
    glob ((splitext filepath).1 +:+ ".*") w
  else [].

(** A text without slash. *)
Definition no_sep (s : list ascii) : bool :=
  negb (existsb (fun c => Ascii.eqb c "/") s).

(** Two instances that differ at most in the fields the after-save rule
    writes ([skip], [can_download], [downloaded], [media_file], [thumb]). *)
Definition same_inputs (a b : Media.t) : Prop :=
  Media.pk a = Media.pk b /\ Media.source a = Media.source b
  /\ Media.name a = Media.name b /\ Media.url a = Media.url b
  /\ Media.metadata a = Media.metadata b
  /\ Media.manual_skip a = Media.manual_skip b.

(** The one-shot jobs of a Source, as [source_post_save] enqueues them. *)
Definition check_directory_job (instance : Source.t) : Task :=
  mkTask "sync.tasks.check_source_directory_exists" [str (Source.pk instance)] None
         priority_check_source_directory_exists NEVER
         (format "Check download directory exists for source " (Source.name instance)).

Definition images_job (instance : Source.t) : Task :=
  mkTask "sync.tasks.download_source_images" [str (Source.pk instance)] None
         priority_download_source_images NEVER
         (format "Check download directory exists for source " (Source.name instance)).

Definition reconcile_job (instance : Source.t) : Task :=
  mkTask "sync.tasks.save_all_media_for_source" [str (Source.pk instance)] None
         priority_save_all_media_for_source NEVER
         (format "Checking all media for source " (Source.name instance)).

(** The path of given components. *)
Fixpoint join_path (comps : list (list ascii)) : list ascii :=
  match comps with
  | [] => []
  | comp :: rest =>
      match rest with
      | [] => comp
      | _ :: _ => comp ++ "/"%char :: join_path rest
      end
  end.

(** Every Media row is stored under the id it carries. *)
Definition rows_keyed_by_pk (w : World) : Prop :=
  forall pk m, medias w !! pk = Some m -> Media.pk m = pk.

(** The Media rows of a Source, as [source_pre_delete] lists them. *)
Definition media_of (instance : Source.t) (w : World) : list Media.t :=
  List.filter
    (fun media => bool_decide (Source.pk (Media.source media) = Source.pk instance))
    (map_to_list (medias w)).*2.

(** An event of the after-save rule that stays with the item of id [pk]:
    its row, a cancellation for it, or a job for it that replaces the
    pending one. *)
Definition about_item (pk : string) (e : Event) : Prop :=
  match e with
  | EvSaveMedia m => Media.pk m = pk
  | EvCancel _ args => head args = Some (str pk)
  | EvEnqueue t remove_existing_tasks =>
      head (task_args t) = Some (str pk) /\ remove_existing_tasks = true
      /\ repeat t = NEVER
  | _ => False
  end.

(** * Properties *)

Ltac case_if :=
  match goal with
  | |- context [if ?b then _ else _] => destruct b eqn:?
  end.

Lemma Media_save_disconnected receiver instance w :
  Media_save receiver instance (post_save_disconnect w)
  = Some (instance, write_media instance (post_save_disconnect w)).
Proof. reflexivity. Qed.

Lemma media_post_save_steps fuel instance w :
  media_post_save (S fuel) instance w
  = Some (if Media.manual_skip instance then (instance, w)
          else reconcile instance w).
Proof.
  cbn [media_post_save].
  destruct (Media.manual_skip instance) eqn:Hmanual; [reflexivity|].
  match goal with |- context [mbind ?K] =>
    lazymatch K with
    | context [download_media] => set (k := K)
    end
  end.
  change (Some (reconcile instance w))
    with (k (recomputed instance, corrective_save instance w)).
  clearbody k. clear Hmanual.
  unfold corrective_save, needs_save, recomputed, after_format,
    can_download_changed, after_filter, skip_changed, has_valid_format, filter_media.
  destruct instance as [pk src nm url md sk ms cd dl mf th].
  cbn [Media.downloaded Media.metadata Media.skip Media.can_download].
  destruct dl, sk, cd, (truthy md) eqn:Hm; cbn [negb andb orb fst snd];
    try reflexivity.
  all: try match goal with
       | |- context [should_skip ?x] => destruct (should_skip x) eqn:?
       end.
  all: repeat (case_bool_decide; try congruence);
    cbn [negb andb orb fst snd Media.set_skip Media.set_can_download
         Media.downloaded Media.metadata Media.skip Media.can_download];
    rewrite ?Hm; cbn [negb andb orb fst snd].
  all: try match goal with
       | |- context [truthy (get_format_str ?x)] =>
           destruct (truthy (get_format_str x)) eqn:?
       end.
  all: repeat (case_bool_decide; try (cbn in *; congruence));
    cbn [negb andb orb fst snd Media.set_skip Media.set_can_download
         Media.downloaded Media.metadata Media.skip Media.can_download].
  all: try (cbn in *; congruence).
  all: rewrite ?Media_save_disconnected; reflexivity.
Qed.

(** ** The registry *)

Lemma pending_app kind args ts1 ts2 :
  pending kind args (ts1 ++ ts2) = pending kind args ts1 ++ pending kind args ts2.
Proof. apply List.filter_app. Qed.

Lemma pending_drop_task kind args ts :
  pending kind args (drop_task kind args ts) = [].
Proof.
  unfold pending, drop_task. induction ts as [|t ts IH]; [reflexivity|].
  cbn. destruct (has_key kind args t) eqn:Hk; cbn; rewrite ?Hk; exact IH.
Qed.

Lemma pending_drop_other kind args kind' args' ts :
  kind <> kind' ->
  pending kind args (drop_task kind' args' ts) = pending kind args ts.
Proof.
  intros Hne. unfold pending, drop_task.
  induction ts as [|t ts IH]; [reflexivity|].
  cbn. destruct (has_key kind' args' t) eqn:Hk'; cbn; rewrite IH; [|reflexivity].
  destruct (has_key kind args t) eqn:Hk; [|reflexivity].
  unfold has_key in Hk, Hk'.
  apply andb_prop in Hk as [Hk _]. apply andb_prop in Hk' as [Hk' _].
  apply bool_decide_eq_true_1 in Hk, Hk'. congruence.
Qed.

Lemma pending_other_job kind args t :
  task_name t <> kind -> pending kind args [t] = [].
Proof.
  intros Hne. cbn. unfold has_key.
  by rewrite (bool_decide_eq_false_2 _ Hne).
Qed.

Lemma pending_own_job t :
  pending (task_name t) (task_args t) [t] = [t].
Proof. cbn. unfold has_key. by rewrite !bool_decide_eq_true_2. Qed.

(** Scheduling a job of another kind leaves the pending jobs of a kind. *)
Lemma pending_schedule_other kind args kind' args' q p r v b w :
  kind <> kind' ->
  pending kind args (tasks (schedule kind' args' q p r v b w))
  = pending kind args (tasks w).
Proof.
  intros Hne. unfold schedule. cbn [tasks emit set_tasks].
  rewrite pending_app, pending_other_job, app_nil_r by (cbn; congruence).
  destruct b; [by apply pending_drop_other|reflexivity].
Qed.

(** Scheduling with [remove_existing_tasks] leaves exactly the new job
    pending for its key. *)
Lemma pending_schedule_replace kind args q p r v w :
  pending kind args (tasks (schedule kind args q p r v true w))
  = [mkTask kind args q p r v].
Proof.
  unfold schedule. cbn [tasks emit set_tasks].
  rewrite pending_app, pending_drop_task.
  apply (pending_own_job (mkTask kind args q p r v)).
Qed.

(** ** The after-save rule of Media *)

Lemma media_post_save_total fuel instance w :
  is_Some (media_post_save (S fuel) instance w).
Proof. rewrite media_post_save_steps. eauto. Qed.

Ltac unfold_steps :=
  unfold reconcile, corrective_save, schedule_metadata, schedule_thumbnail,
    schedule_download, normalize_thumb, normalize_media_file,
    corrective_events, metadata_events, thumbnail_events, download_events,
    wants_thumbnail.

(** What the steps leave alone. *)
Lemma files_corrective_save instance w :
  files (corrective_save instance w) = files w.
Proof. unfold corrective_save. case_if; reflexivity. Qed.

Lemma files_schedule_metadata instance w :
  files (schedule_metadata instance w) = files w.
Proof. unfold schedule_metadata. case_if; reflexivity. Qed.

Lemma files_schedule_thumbnail instance w :
  files (schedule_thumbnail instance w) = files w.
Proof. unfold schedule_thumbnail. repeat case_if; reflexivity. Qed.

Lemma files_schedule_download instance w :
  files (schedule_download instance w) = files w.
Proof. unfold schedule_download. case_if; reflexivity. Qed.

Lemma thumb_file_exists_files instance w w' :
  files w' = files w -> thumb_file_exists instance w' = thumb_file_exists instance w.
Proof. intros H. unfold thumb_file_exists, file_exists. rewrite H. reflexivity. Qed.

Lemma media_file_exists_files instance w w' :
  files w' = files w -> media_file_exists instance w' = media_file_exists instance w.
Proof. intros H. unfold media_file_exists, file_exists. rewrite H. reflexivity. Qed.

Lemma media_file_exists_normalize_thumb instance w w' :
  media_file_exists (normalize_thumb instance w) w' = media_file_exists instance w'.
Proof. unfold normalize_thumb. case_if; reflexivity. Qed.

Lemma normalize_thumb_files instance w w' :
  files w' = files w -> normalize_thumb instance w' = normalize_thumb instance w.
Proof. intros H. unfold normalize_thumb. by rewrite (thumb_file_exists_files _ w w'). Qed.

Lemma normalize_media_file_files instance w w' :
  files w' = files w ->
  normalize_media_file instance w' = normalize_media_file instance w.
Proof.
  intros H. unfold normalize_media_file. by rewrite (media_file_exists_files _ w w').
Qed.

(** The normalizations read the disk only, which the rule does not touch. *)
Lemma reconcile_unfold instance w :
  reconcile instance w
  = let m := recomputed instance in
    let w1 := corrective_save instance w in
    let w2 := schedule_metadata m w1 in
    let m3 := normalize_thumb m w in
    let w3 := schedule_thumbnail m3 w2 in
    let m4 := normalize_media_file m3 w in
    (m4, schedule_download m4 w3).
Proof.
  unfold reconcile. cbv zeta.
  rewrite (normalize_thumb_files _ w (schedule_metadata _ _)).
  - rewrite (normalize_media_file_files _ w (schedule_thumbnail _ _)); [reflexivity|].
    rewrite files_schedule_thumbnail, files_schedule_metadata.
    apply files_corrective_save.
  - rewrite files_schedule_metadata. apply files_corrective_save.
Qed.

(** The instance the rule returns: the recomputed flags, then the two
    normalizations against the disk. *)
Lemma reconcile_instance instance w :
  (reconcile instance w).1
  = normalize_media_file (normalize_thumb (recomputed instance) w) w.
Proof. rewrite reconcile_unfold. reflexivity. Qed.

Lemma recomputed_skip instance :
  Media.skip (recomputed instance) = Media.skip (after_filter instance).
Proof. unfold recomputed, after_format. case_if; reflexivity. Qed.

Lemma recomputed_can_download instance :
  Media.can_download (recomputed instance)
  = if truthy (Media.metadata instance)
    then has_valid_format (after_filter instance)
    else Media.can_download instance.
Proof.
  unfold recomputed, after_format, after_filter, filter_media.
  destruct (truthy (Media.metadata instance)) eqn:Hm;
    repeat (case_if; cbn [fst Media.metadata Media.set_skip Media.can_download
                          Media.set_can_download] in *);
    congruence.
Qed.

Lemma recomputed_frame instance :
  let m := recomputed instance in
  Media.pk m = Media.pk instance /\ Media.source m = Media.source instance
  /\ Media.name m = Media.name instance /\ Media.url m = Media.url instance
  /\ Media.metadata m = Media.metadata instance
  /\ Media.manual_skip m = Media.manual_skip instance
  /\ Media.downloaded m = Media.downloaded instance
  /\ Media.media_file m = Media.media_file instance
  /\ Media.thumb m = Media.thumb instance.
Proof.
  unfold recomputed, after_format, after_filter, filter_media.
  repeat case_if; cbn; repeat split; reflexivity.
Qed.

Lemma normalize_frame instance w :
  let m := normalize_media_file (normalize_thumb instance w) w in
  Media.pk m = Media.pk instance /\ Media.source m = Media.source instance
  /\ Media.name m = Media.name instance /\ Media.url m = Media.url instance
  /\ Media.metadata m = Media.metadata instance
  /\ Media.manual_skip m = Media.manual_skip instance
  /\ Media.skip m = Media.skip instance
  /\ Media.can_download m = Media.can_download instance.
Proof.
  unfold normalize_media_file, normalize_thumb.
  repeat case_if; cbn; repeat split; reflexivity.
Qed.

(** The events and the registry after each step. *)
Lemma trace_corrective_save instance w :
  trace (corrective_save instance w) = trace w ++ corrective_events instance.
Proof. unfold_steps. case_if; cbn; [reflexivity|]. by rewrite app_nil_r. Qed.

Lemma tasks_corrective_save instance w :
  tasks (corrective_save instance w) = tasks w.
Proof. unfold_steps. case_if; reflexivity. Qed.

Lemma medias_corrective_save instance w :
  medias (corrective_save instance w)
  = if needs_save instance
    then <[Media.pk instance := recomputed instance]> (medias w)
    else medias w.
Proof.
  unfold_steps. case_if; [cbn|reflexivity].
  destruct (recomputed_frame instance) as (->&_). reflexivity.
Qed.

Lemma wants_metadata_tasks instance w w' :
  tasks w' = tasks w -> wants_metadata instance w' = wants_metadata instance w.
Proof. intros H. unfold wants_metadata, get_media_metadata_task. by rewrite H. Qed.

Lemma wants_metadata_events_tasks instance w' w :
  tasks w' = tasks w -> metadata_events instance w' = metadata_events instance w.
Proof. intros H. unfold metadata_events. by rewrite (wants_metadata_tasks _ w w'). Qed.

Lemma trace_schedule_metadata instance w :
  trace (schedule_metadata instance w) = trace w ++ metadata_events instance w.
Proof. unfold_steps. case_if; cbn; [reflexivity|]. by rewrite app_nil_r. Qed.

Lemma medias_schedule_metadata instance w :
  medias (schedule_metadata instance w) = medias w.
Proof. unfold_steps. case_if; reflexivity. Qed.

Lemma tasks_schedule_metadata instance w :
  tasks (schedule_metadata instance w)
  = if wants_metadata instance w
    then drop_task "sync.tasks.download_media_metadata" [str (Media.pk instance)] (tasks w)
         ++ [metadata_job instance]
    else tasks w.
Proof. unfold_steps. case_if; reflexivity. Qed.

Lemma trace_schedule_thumbnail instance w :
  trace (schedule_thumbnail instance w) = trace w ++ thumbnail_events instance.
Proof.
  unfold_steps. repeat case_if; cbn in *; try discriminate;
    rewrite ?app_nil_r; reflexivity.
Qed.

Lemma medias_schedule_thumbnail instance w :
  medias (schedule_thumbnail instance w) = medias w.
Proof. unfold_steps. repeat case_if; reflexivity. Qed.

Lemma tasks_schedule_thumbnail instance w :
  tasks (schedule_thumbnail instance w)
  = if wants_thumbnail instance
    then drop_task "sync.tasks.download_media_thumbnail"
           [str (Media.pk instance); default "" (thumbnail instance)] (tasks w)
         ++ [thumbnail_job instance]
    else tasks w.
Proof.
  unfold_steps. repeat case_if; cbn in *; try discriminate; reflexivity.
Qed.

Lemma trace_schedule_download instance w :
  trace (schedule_download instance w) = trace w ++ download_events instance.
Proof.
  unfold_steps. case_if; cbn; rewrite ?app_nil_r; [|reflexivity].
  by rewrite <- app_assoc.
Qed.

Lemma medias_schedule_download instance w :
  medias (schedule_download instance w) = medias w.
Proof. unfold_steps. case_if; reflexivity. Qed.

Lemma drop_task_idemp kind args ts :
  drop_task kind args (drop_task kind args ts) = drop_task kind args ts.
Proof.
  unfold drop_task. induction ts as [|t ts IH]; [reflexivity|].
  cbn. destruct (has_key kind args t) eqn:Hk; cbn; rewrite ?Hk; cbn; congruence.
Qed.

Lemma tasks_schedule_download instance w :
  tasks (schedule_download instance w)
  = if eligible instance
    then drop_task "sync.tasks.download_media" [str (Media.pk instance)] (tasks w)
         ++ [download_job instance]
    else tasks w.
Proof.
  unfold_steps. case_if; [|reflexivity].
  unfold download_media, schedule, delete_task_by_media.
  cbn [tasks emit set_tasks]. by rewrite drop_task_idemp.
Qed.

(** The trace of a run: the corrective write, then the metadata, thumbnail
    and download commands. *)
Lemma reconcile_trace instance w :
  trace (reconcile instance w).2
  = trace w ++ corrective_events instance
    ++ metadata_events (recomputed instance) w
    ++ thumbnail_events (normalize_thumb (recomputed instance) w)
    ++ download_events (reconcile instance w).1.
Proof.
  rewrite reconcile_unfold. cbv zeta. cbn [fst snd].
  rewrite trace_schedule_download, trace_schedule_thumbnail,
    trace_schedule_metadata, trace_corrective_save.
  rewrite (wants_metadata_events_tasks _ _ w) by apply tasks_corrective_save.
  by rewrite <- !app_assoc.
Qed.

Lemma reconcile_medias instance w :
  medias (reconcile instance w).2
  = if needs_save instance
    then <[Media.pk instance := recomputed instance]> (medias w)
    else medias w.
Proof.
  unfold reconcile. cbn [snd].
  rewrite medias_schedule_download, medias_schedule_thumbnail,
    medias_schedule_metadata. apply medias_corrective_save.
Qed.

Lemma issued_app w w' evs :
  trace w' = trace w ++ evs -> issued w w' = evs.
Proof. intros H. unfold issued. rewrite H. apply drop_app_length. Qed.

Lemma media_rows_written_app evs1 evs2 :
  media_rows_written (evs1 ++ evs2)
  = media_rows_written evs1 ++ media_rows_written evs2.
Proof. apply omap_app. Qed.

Lemma media_rows_written_jobs instance w :
  media_rows_written (metadata_events instance w) = []
  /\ media_rows_written (thumbnail_events instance) = []
  /\ media_rows_written (download_events instance) = [].
Proof. unfold_steps. repeat split; case_if; reflexivity. Qed.

(** The pending jobs of a kind across the steps. *)
Lemma pending_delete_task_by_media_other kind args kind' args' w :
  kind <> kind' ->
  pending kind args (tasks (delete_task_by_media kind' args' w))
  = pending kind args (tasks w).
Proof. intros Hne. cbn. by apply pending_drop_other. Qed.

Lemma pending_schedule_metadata_other kind args instance w :
  kind <> "sync.tasks.download_media_metadata" ->
  pending kind args (tasks (schedule_metadata instance w)) = pending kind args (tasks w).
Proof.
  intros Hne. unfold schedule_metadata. case_if; [|reflexivity].
  by apply pending_schedule_other.
Qed.

Lemma pending_schedule_thumbnail_other kind args instance w :
  kind <> "sync.tasks.download_media_thumbnail" ->
  pending kind args (tasks (schedule_thumbnail instance w)) = pending kind args (tasks w).
Proof.
  intros Hne. unfold schedule_thumbnail. repeat case_if; try reflexivity.
  by apply pending_schedule_other.
Qed.

Lemma pending_schedule_download_other kind args instance w :
  kind <> "sync.tasks.download_media" ->
  pending kind args (tasks (schedule_download instance w)) = pending kind args (tasks w).
Proof.
  intros Hne. unfold schedule_download. case_if; [|reflexivity].
  unfold download_media. rewrite pending_schedule_other by done.
  by apply pending_delete_task_by_media_other.
Qed.

Lemma pending_schedule_metadata instance w :
  pending "sync.tasks.download_media_metadata" [str (Media.pk instance)]
    (tasks (schedule_metadata instance w))
  = if wants_metadata instance w then [metadata_job instance]
    else pending "sync.tasks.download_media_metadata" [str (Media.pk instance)] (tasks w).
Proof.
  unfold schedule_metadata. case_if; [|reflexivity].
  apply pending_schedule_replace.
Qed.

Lemma pending_schedule_download instance w :
  pending "sync.tasks.download_media" [str (Media.pk instance)]
    (tasks (schedule_download instance w))
  = if eligible instance then [download_job instance]
    else pending "sync.tasks.download_media" [str (Media.pk instance)] (tasks w).
Proof.
  unfold schedule_download. case_if; [|reflexivity].
  apply pending_schedule_replace.
Qed.

Lemma wants_metadata_recomputed instance w :
  wants_metadata (recomputed instance) w = wants_metadata instance w.
Proof.
  unfold wants_metadata.
  destruct (recomputed_frame instance) as (->&_&_&_&->&_).
  rewrite recomputed_skip. unfold after_filter.
  destruct (truthy (Media.metadata instance)); [reflexivity|].
  by rewrite andb_false_r.
Qed.

Lemma metadata_job_recomputed instance :
  metadata_job (recomputed instance) = metadata_job instance.
Proof.
  unfold metadata_job. by destruct (recomputed_frame instance) as (->&_).
Qed.

Lemma reconcile_pk instance w :
  Media.pk (reconcile instance w).1 = Media.pk instance.
Proof.
  rewrite reconcile_instance.
  destruct (normalize_frame (recomputed instance) w) as (->&_).
  by destruct (recomputed_frame instance) as (->&_).
Qed.

Lemma reconcile_pending_metadata instance w :
  pending "sync.tasks.download_media_metadata" [str (Media.pk instance)]
    (tasks (reconcile instance w).2)
  = if wants_metadata instance w then [metadata_job instance]
    else pending "sync.tasks.download_media_metadata" [str (Media.pk instance)] (tasks w).
Proof.
  rewrite reconcile_unfold. cbv zeta. cbn [snd].
  rewrite pending_schedule_download_other, pending_schedule_thumbnail_other by done.
  destruct (recomputed_frame instance) as (Hpk&_). rewrite <- Hpk at 1.
  rewrite pending_schedule_metadata, Hpk.
  rewrite (wants_metadata_tasks _ w) by apply tasks_corrective_save.
  by rewrite wants_metadata_recomputed, metadata_job_recomputed, tasks_corrective_save.
Qed.

Lemma reconcile_pending_download instance w :
  pending "sync.tasks.download_media" [str (Media.pk instance)]
    (tasks (reconcile instance w).2)
  = if eligible (reconcile instance w).1 then [download_job (reconcile instance w).1]
    else pending "sync.tasks.download_media" [str (Media.pk instance)] (tasks w).
Proof.
  rewrite <- (reconcile_pk instance w) at 1 2.
  rewrite reconcile_unfold. cbv zeta. cbn [fst snd].
  rewrite pending_schedule_download.
  rewrite pending_schedule_thumbnail_other, pending_schedule_metadata_other by done.
  by rewrite tasks_corrective_save.
Qed.

(** Successive runs keep the key of the item, and a bound that one run
    keeps is kept by any number of runs. *)
Lemma media_post_save_n_bound fuel (count : Media.t -> World -> nat) :
  (forall instance w,
     (count instance (reconcile instance w).2 <= Nat.max 1 (count instance w))%nat) ->
  (forall instance instance' w,
     Media.pk instance' = Media.pk instance -> count instance' w = count instance w) ->
  forall n instance w,
  exists instance' w',
    media_post_save_n (S fuel) n instance w = Some (instance', w')
    /\ Media.pk instance' = Media.pk instance
    /\ (count instance w' <= Nat.max 1 (count instance w))%nat.
Proof.
  intros Hstep Hkey n. induction n as [|n IH]; intros instance w.
  { eexists _, _. repeat split. lia. }
  cbn [media_post_save_n]. rewrite media_post_save_steps. cbn [mbind option_bind].
  destruct (Media.manual_skip instance).
  - apply IH.
  - rewrite (surjective_pairing (reconcile instance w)).
    destruct (IH (reconcile instance w).1 (reconcile instance w).2)
      as (instance' & w' & Hrun & Hpk & Hle).
    eexists _, _. split; [exact Hrun|].
    rewrite reconcile_pk in Hpk. split; [exact Hpk|].
    rewrite !(Hkey instance (reconcile instance w).1) in Hle by apply reconcile_pk.
    specialize (Hstep instance w). lia.
Qed.

(** C1. For a Media item with [manual_skip] set the after-save rule stops at
    once: it returns the instance and the world as it received them, so
    [skip] and [can_download] are what they were, no row is written and no
    metadata, thumbnail or download job is enqueued. *)
Theorem manual_skip_stops_the_rule fuel instance w :
  Media.manual_skip instance = true ->
  media_post_save (S fuel) instance w = Some (instance, w).
Proof. intros H. rewrite media_post_save_steps, H. reflexivity. Qed.

(** C2. For a Media item that is not skipped by hand, after the rule has
    run: with metadata present [can_download] is true when a valid format
    can be derived for the item and false when none can, whatever it was
    before; with metadata absent it is what it was.  The format check is
    the collaborator's verdict on the item as the rule hands it over, that
    is after the filter step. *)
Theorem can_download_recomputed fuel instance w :
  Media.manual_skip instance = false ->
  exists instance' w',
    media_post_save (S fuel) instance w = Some (instance', w')
    /\ (truthy (Media.metadata instance) = true ->
        has_valid_format (after_filter instance) = true ->
        Media.can_download instance' = true)
    /\ (truthy (Media.metadata instance) = true ->
        has_valid_format (after_filter instance) = false ->
        Media.can_download instance' = false)
    /\ (truthy (Media.metadata instance) = false ->
        Media.can_download instance' = Media.can_download instance).
Proof.
  intros Hmanual. rewrite media_post_save_steps, Hmanual.
  eexists _, _. split; [apply f_equal, surjective_pairing|].
  rewrite reconcile_instance.
  destruct (normalize_frame (recomputed instance) w) as (_&_&_&_&_&_&_&->).
  rewrite recomputed_can_download.
  repeat split; intros Hm; rewrite Hm; congruence.
Qed.

Lemma filter_media_skip instance :
  Media.skip (filter_media instance).1 = should_skip instance.
Proof.
  unfold filter_media. case_bool_decide as H; cbn; [reflexivity|].
  destruct (Media.skip instance), (should_skip instance); congruence.
Qed.

Lemma filter_media_changed instance :
  (filter_media instance).2 = negb (bool_decide (Media.skip instance = should_skip instance)).
Proof.
  unfold filter_media. repeat case_bool_decide; cbn; congruence.
Qed.

(** A run whose verdicts agree with the stored flags has nothing to write. *)
Lemma needs_save_settled instance :
  (negb (Media.downloaded instance) && truthy (Media.metadata instance) = true ->
   Media.skip instance = should_skip instance) ->
  (truthy (Media.metadata instance) = true ->
   Media.can_download instance = has_valid_format instance) ->
  needs_save instance = false.
Proof.
  intros Hskip Hformat.
  unfold needs_save, skip_changed, can_download_changed, after_filter.
  rewrite filter_media_changed. unfold filter_media.
  destruct (negb (Media.downloaded instance) && truthy (Media.metadata instance)) eqn:Hrun.
  - rewrite (bool_decide_eq_true_2 _ (Hskip eq_refl)). cbn [negb orb].
    rewrite (bool_decide_eq_false_2 (Media.skip instance ≠ should_skip instance))
      by (intros Hne; apply Hne, Hskip; reflexivity).
    cbn [fst].
    destruct (truthy (Media.metadata instance)); [|reflexivity].
    by rewrite (bool_decide_eq_true_2 _ (Hformat eq_refl)).
  - cbn [andb orb].
    destruct (truthy (Media.metadata instance)); [|reflexivity].
    by rewrite (bool_decide_eq_true_2 _ (Hformat eq_refl)).
Qed.


Lemma commands_for_app kind evs1 evs2 :
  commands_for kind (evs1 ++ evs2) = commands_for kind evs1 ++ commands_for kind evs2.
Proof. apply List.filter_app. Qed.

Lemma commands_for_corrective kind instance :
  commands_for kind (corrective_events instance) = [].
Proof. unfold corrective_events. case_if; reflexivity. Qed.

Lemma reconcile_issued instance w :
  issued w (reconcile instance w).2
  = corrective_events instance
    ++ metadata_events (recomputed instance) w
    ++ thumbnail_events (normalize_thumb (recomputed instance) w)
    ++ download_events (reconcile instance w).1.
Proof. apply issued_app, reconcile_trace. Qed.

Lemma reconcile_pending_for_metadata instance w :
  (pending_for "sync.tasks.download_media_metadata" instance (reconcile instance w).2
   <= Nat.max 1 (pending_for "sync.tasks.download_media_metadata" instance w))%nat.
Proof.
  unfold pending_for. rewrite reconcile_pending_metadata.
  case_if; cbn [length]; lia.
Qed.

Lemma reconcile_pending_for_download instance w :
  (pending_for "sync.tasks.download_media" instance (reconcile instance w).2
   <= Nat.max 1 (pending_for "sync.tasks.download_media" instance w))%nat.
Proof.
  unfold pending_for. rewrite reconcile_pending_download.
  case_if; cbn [length]; lia.
Qed.

Lemma pending_for_pk kind instance instance' w :
  Media.pk instance' = Media.pk instance ->
  pending_for kind instance' w = pending_for kind instance w.
Proof. intros H. unfold pending_for. by rewrite H. Qed.

(** C4 (amended). For a Media item that is not skipped by hand, the rule
    enqueues a one-shot metadata-fetch job exactly when metadata is absent,
    [skip] is false and no metadata-fetch job is pending for the item, and
    sends the registry no other command about metadata-fetch jobs.  The job
    has priority 5, which is the priority of routine indexing (not above
    it) and is below thumbnail (10) and download (15).  Whatever the number
    of successive runs, they never leave a second pending metadata-fetch
    job for the item. *)
Theorem metadata_fetch_scheduling fuel instance w :
  Media.manual_skip instance = false ->
  exists instance' w',
    media_post_save (S fuel) instance w = Some (instance', w')
    /\ commands_for "sync.tasks.download_media_metadata" (issued w w')
       = (if negb (truthy (Media.metadata instance)) && negb (Media.skip instance)
             && negb (bool_decide (is_Some (get_media_metadata_task (Media.pk instance) w)))
          then [EvEnqueue (metadata_job instance) true] else [])
    /\ repeat (metadata_job instance) = NEVER
    /\ priority (metadata_job instance) = 5
    /\ priority (metadata_job instance) = priority_index_source_task
    /\ priority (metadata_job instance) < priority_download_media_thumbnail
    /\ priority (metadata_job instance) < priority_download_media
    /\ forall n, exists instance_n w_n,
         media_post_save_n (S fuel) n instance w = Some (instance_n, w_n)
         /\ (pending_for "sync.tasks.download_media_metadata" instance w_n
             <= Nat.max 1 (pending_for "sync.tasks.download_media_metadata" instance w))%nat.
Proof.
  intros Hmanual. rewrite media_post_save_steps, Hmanual.
  eexists _, _. split; [apply f_equal, surjective_pairing|].
  split.
  { rewrite reconcile_issued, !commands_for_app, commands_for_corrective.
    fold (wants_metadata instance w).
    unfold metadata_events. rewrite wants_metadata_recomputed, metadata_job_recomputed.
    unfold thumbnail_events, download_events.
    repeat case_if; reflexivity. }
  repeat (split; [reflexivity|]).
  intros n.
  destruct (media_post_save_n_bound fuel
              (pending_for "sync.tasks.download_media_metadata")
              reconcile_pending_for_metadata
              (pending_for_pk "sync.tasks.download_media_metadata") n instance w)
    as (instance_n & w_n & Hrun & _ & Hle).
  by exists instance_n, w_n.
Qed.

Lemma media_file_exists_recomputed instance w :
  media_file_exists (normalize_thumb (recomputed instance) w) w
  = media_file_exists instance w.
Proof.
  rewrite media_file_exists_normalize_thumb. unfold media_file_exists.
  by destruct (recomputed_frame instance) as (_&_&_&_&_&_&_&->&_).
Qed.

(** C5. For a Media item that is not skipped by hand: when its media file is
    not on disk the rule returns it with [downloaded] false and
    [media_file] null; and when the returned item is not downloaded, can be
    downloaded, is not skipped and its Source has [download_media] set, the
    rule cancels the pending download job of the item and enqueues one
    download job, in the queue of the owning Source and at the highest
    priority of the table, which is then the only pending download job of
    the item.  Whatever the number of successive runs, they never leave a
    second pending download job for the item. *)
Theorem download_scheduling fuel instance w :
  Media.manual_skip instance = false ->
  exists instance' w',
    media_post_save (S fuel) instance w = Some (instance', w')
    /\ (media_file_exists instance w = false ->
        Media.downloaded instance' = false /\ Media.media_file instance' = None)
    /\ (negb (Media.downloaded instance') && Media.can_download instance'
        && negb (Media.skip instance')
        && Source.download_media (Media.source instance') = true ->
        commands_for "sync.tasks.download_media" (issued w w')
        = [EvCancel "sync.tasks.download_media" [str (Media.pk instance)];
           EvEnqueue (download_job instance') true]
        /\ pending "sync.tasks.download_media" [str (Media.pk instance)] (tasks w')
           = [download_job instance']
        /\ queue (download_job instance')
           = Some (str (Source.pk (Media.source instance)))
        /\ Forall (fun p => p <= priority (download_job instance')) priority_table)
    /\ forall n, exists instance_n w_n,
         media_post_save_n (S fuel) n instance w = Some (instance_n, w_n)
         /\ (pending_for "sync.tasks.download_media" instance w_n
             <= Nat.max 1 (pending_for "sync.tasks.download_media" instance w))%nat.
Proof.
  intros Hmanual. rewrite media_post_save_steps, Hmanual.
  eexists _, _. split; [apply f_equal, surjective_pairing|].
  split; [|split].
  - intros Habsent. rewrite reconcile_instance.
    unfold normalize_media_file.
    by rewrite media_file_exists_recomputed, Habsent.
  - intros Heligible. fold (eligible (reconcile instance w).1) in Heligible.
    split; [|split; [|split]].
    + rewrite reconcile_issued, !commands_for_app, commands_for_corrective.
      unfold metadata_events, thumbnail_events, download_events.
      rewrite Heligible, reconcile_pk.
      repeat case_if; reflexivity.
    + by rewrite reconcile_pending_download, Heligible.
    + cbn [queue download_job]. rewrite reconcile_instance.
      destruct (normalize_frame (recomputed instance) w) as (_&->&_).
      by destruct (recomputed_frame instance) as (_&->&_).
    + cbn [priority download_job]. unfold priority_table.
      repeat constructor; vm_compute; discriminate.
  - intros n.
    destruct (media_post_save_n_bound fuel
                (pending_for "sync.tasks.download_media")
                reconcile_pending_for_download
                (pending_for_pk "sync.tasks.download_media") n instance w)
      as (instance_n & w_n & Hrun & _ & Hle).
    by exists instance_n, w_n.
Qed.

(** ** The rules of Source *)





(** ** Permanent failure of a job *)



(** ** The guard around the corrective write *)

(** C9 (amended). The guard is the disconnection of the after-save receiver
    for every Media item, held for the corrective write only.  While the
    corrective write of one item is in progress, a save of any Media item,
    this one or another, writes its row and runs no after-save rule; the
    corrective call ends by connecting the receiver again, so that when the
    rule has returned a save of any Media item runs the receiver. *)
Theorem guard_disconnects_receiver_for_all_media fuel instance w :
  Media.manual_skip instance = false ->
  needs_save instance = true ->
  (forall written receiver other,
     Media_save receiver other (during_corrective_write instance w written)
     = Some (other, write_media other (during_corrective_write instance w written)))
  /\ corrective_save instance w
     = post_save_connect (during_corrective_write instance w true)
  /\ exists instance' w',
      media_post_save (S fuel) instance w = Some (instance', w')
      /\ forall receiver other,
          Media_save receiver other w' = receiver other (write_media other w').
Proof.
  intros Hmanual Hsave. split; [|split].
  - intros written receiver other. unfold Media_save, during_corrective_write.
    by destruct written.
  - unfold corrective_save, during_corrective_write. by rewrite Hsave.
  - rewrite media_post_save_steps, Hmanual.
    eexists _, _. split; [apply f_equal, surjective_pairing|].
    intros receiver other. unfold Media_save.
    assert (media_post_save_connected (reconcile instance w).2 = true) as Hc.
    { rewrite reconcile_unfold. cbv zeta. cbn [snd].
      unfold schedule_download, schedule_thumbnail, schedule_metadata, corrective_save.
      rewrite Hsave. by repeat case_if. }
    cbn [media_post_save_connected write_media emit set_medias]. by rewrite Hc.
Qed.

(** ** What the rule persists *)

Lemma recomputed_as_update instance :
  recomputed instance
  = Media.set_can_download (Media.can_download (recomputed instance))
      (Media.set_skip (Media.skip (recomputed instance)) instance).
Proof.
  destruct instance.
  unfold recomputed, after_format, after_filter, filter_media.
  repeat case_if; reflexivity.
Qed.

(** C10. The rule nulls [thumb] when the thumbnail file is not on disk, and
    nulls [media_file] and clears [downloaded] when the media file is not
    on disk, on the instance it returns only.  It writes the row of the
    item at most once, and the row it writes is the instance it received
    with [skip] and [can_download] updated: the file references and
    [downloaded] of the row are those the instance came with, so that after
    a save of the item the persisted row keeps them although the returned
    instance has lost them. *)
Theorem normalizations_are_not_persisted fuel instance w :
  Media.manual_skip instance = false ->
  exists instance' w',
    media_post_save (S fuel) instance w = Some (instance', w')
    /\ (thumb_file_exists instance w = false -> Media.thumb instance' = None)
    /\ (media_file_exists instance w = false ->
        Media.media_file instance' = None /\ Media.downloaded instance' = false)
    /\ (let row := Media.set_can_download (Media.can_download instance')
                     (Media.set_skip (Media.skip instance') instance) in
        media_rows_written (issued w w') = [] /\ medias w' = medias w
        \/ media_rows_written (issued w w') = [row]
           /\ medias w' = <[Media.pk instance := row]> (medias w))
    /\ (medias w !! Media.pk instance = Some instance ->
        exists row,
          medias w' !! Media.pk instance = Some row
          /\ Media.thumb row = Media.thumb instance
          /\ Media.media_file row = Media.media_file instance
          /\ Media.downloaded row = Media.downloaded instance).
Proof.
  intros Hmanual. rewrite media_post_save_steps, Hmanual.
  eexists _, _. split; [apply f_equal, surjective_pairing|].
  rewrite reconcile_medias, reconcile_issued, !media_rows_written_app.
  destruct (media_rows_written_jobs (recomputed instance) w) as (->&_&_).
  destruct (media_rows_written_jobs (normalize_thumb (recomputed instance) w) w)
    as (_&->&_).
  destruct (media_rows_written_jobs (reconcile instance w).1 w) as (_&_&->).
  rewrite !app_nil_r. rewrite reconcile_instance.
  destruct (normalize_frame (recomputed instance) w) as (_&_&_&_&_&_&->&->).
  destruct (recomputed_frame instance) as (_&_&_&_&_&_&Hdl&Hmf&Hth).
  split; [|split; [|split]].
  - intros Habsent. unfold normalize_media_file, normalize_thumb.
    replace (thumb_file_exists (recomputed instance) w) with false
      by (rewrite <- Habsent; unfold thumb_file_exists; by rewrite Hth).
    by repeat case_if.
  - intros Habsent. unfold normalize_media_file.
    by rewrite media_file_exists_recomputed, Habsent.
  - cbv zeta. rewrite <- recomputed_as_update. unfold corrective_events.
    destruct (needs_save instance); [right|left]; done.
  - intros Hrow. destruct (needs_save instance).
    + exists (recomputed instance). by rewrite lookup_insert_eq.
    + by exists instance.
Qed.

(** ** Patterns made of a stem without magic *)

Lemma chars_append a b : chars (a +:+ b) = chars a ++ chars b.
Proof.
  unfold chars. induction a as [|c a IH]; [reflexivity|].
  change (c :: list_ascii_of_string (a +:+ b)
          = c :: (list_ascii_of_string a ++ list_ascii_of_string b)).
  by f_equal.
Qed.

Lemma split_path_no_sep s : no_sep s = true -> split_path s = [s].
Proof.
  unfold no_sep. induction s as [|c s IH]; cbn; [reflexivity|].
  destruct (Ascii.eqb c "/"); cbn; [discriminate|].
  intros H. by rewrite (IH H).
Qed.

(** The components of a path: those before its last slash, and the text
    after it, to which a tail without slash is appended. *)
Lemma split_path_app s :
  exists comps last,
    (forall tail, no_sep tail = true -> split_path (s ++ tail) = comps ++ [last ++ tail])
    /\ (has_magic s = false ->
        Forall (fun comp => has_magic comp = false) comps /\ has_magic last = false).
Proof.
  induction s as [|c s (comps & last & Hsplit & Hmagic)].
  { exists [], []. split; [apply split_path_no_sep|]. by split. }
  destruct (Ascii.eqb c "/") eqn:Hsep.
  - exists ([] :: comps), last. split.
    + intros tail Htail. cbn. by rewrite Hsep, Hsplit.
    + cbn [has_magic existsb]. intros [_ Hs]%orb_false_elim.
      destruct (Hmagic Hs). split; [by constructor|done].
  - destruct comps as [|comp comps].
    + exists [], (c :: last). split.
      * intros tail Htail. cbn. by rewrite Hsep, Hsplit.
      * cbn [has_magic existsb]. intros [Hc Hs]%orb_false_elim.
        destruct (Hmagic Hs) as [_ Hl]. split; [constructor|].
        unfold has_magic in Hl. by rewrite Hc, Hl.
    + exists ((c :: comp) :: comps), last. split.
      * intros tail Htail. cbn. by rewrite Hsep, Hsplit.
      * cbn [has_magic existsb]. intros [Hc Hs]%orb_false_elim.
        destruct (Hmagic Hs) as [Hcs Hl]. split; [|done].
        apply Forall_cons in Hcs as [Hcomp Hcs]. constructor; [|done].
        unfold has_magic in Hcomp. cbn [has_magic existsb]. by rewrite Hc, Hcomp.
Qed.

Lemma translate_literal l rest fuel :
  has_magic l = false ->
  translate (length l + fuel) (l ++ rest) = (TLit <$> l) ++ translate fuel rest.
Proof.
  induction l as [|c l IH]; [reflexivity|].
  cbn [has_magic existsb]. intros [Hc Hl]%orb_false_elim.
  apply orb_false_elim in Hc as [[Hstar Hany]%orb_false_elim Hopen].
  cbn. rewrite Hstar, Hany, Hopen. by rewrite <- IH.
Qed.

Lemma match_toks_literal l ts s :
  match_toks ((TLit <$> l) ++ ts) (l ++ s) = match_toks ts s.
Proof.
  induction l as [|c l IH]; [reflexivity|].
  cbn. rewrite IH. by rewrite Ascii.eqb_refl.
Qed.

Lemma match_toks_star s : match_toks [TStar] s = true.
Proof. induction s as [|c s IH]; [reflexivity|]. cbn in *. exact IH. Qed.

(** A component [last.*] matches every entry [last.ext]. *)
Lemma component_match_stem last ext :
  has_magic last = false ->
  component_match (last ++ [("."%char); ("*"%char)]) (last ++ "."%char :: ext) = true.
Proof.
  intros Hlast. unfold component_match.
  assert (has_magic (last ++ [("."%char); ("*"%char)]) = true) as ->.
  { unfold has_magic. rewrite existsb_app. cbn. by rewrite orb_true_r. }
  apply andb_true_intro. split.
  - destruct last as [|c last]; [reflexivity|]. cbn. by destruct (Ascii.eqb c ".").
  - unfold fnmatch. rewrite length_app. cbn [length].
    rewrite (translate_literal last _ 2 Hlast).
    rewrite match_toks_literal. cbn [translate].
    cbn. apply (match_toks_star ext).
Qed.

Lemma components_match_refl comps last_pat last_name :
  Forall (fun comp => has_magic comp = false) comps ->
  component_match last_pat last_name = true ->
  components_match (comps ++ [last_pat]) (comps ++ [last_name]) = true.
Proof.
  intros Hcomps Hlast. induction Hcomps as [|comp comps Hcomp _ IH]; cbn.
  - by rewrite Hlast.
  - rewrite IH, andb_true_r. unfold component_match. rewrite Hcomp.
    by apply bool_decide_eq_true_2.
Qed.

(** The pattern made of a stem without magic yields every file that is the
    stem, a dot and an extension. *)
Lemma glob_literal_stem stem ext :
  has_magic (chars stem) = false ->
  no_sep (chars ext) = true ->
  glob_match (stem +:+ ".*") (stem +:+ "." +:+ ext) = true.
Proof.
  intros Hstem Hext. unfold glob_match. rewrite !chars_append.
  destruct (split_path_app (chars stem)) as (comps & last & Hsplit & Hmagic).
  destruct (Hmagic Hstem) as [Hcomps Hlast].
  rewrite (Hsplit (chars ".*")) by reflexivity.
  rewrite (Hsplit (chars "." ++ chars ext)) by exact Hext.
  apply components_match_refl; [exact Hcomps|].
  by apply component_match_stem.
Qed.

(** ** Deletion of a Media item *)

Lemma foldl_delete_file paths w :
  let w' := foldl (fun w file => delete_file file w) w paths in
  tasks w' = tasks w
  /\ trace w' = trace w ++ map EvDeleteFile paths
  /\ files w' = files w ∖ list_to_set paths
  /\ medias w' = medias w /\ mediaservers w' = mediaservers w.
Proof.
  revert w. induction paths as [|path paths IH]; intros w; cbn [foldl].
  { cbn. rewrite app_nil_r. repeat split. by rewrite difference_empty_L. }
  destruct (IH (delete_file path w)) as (-> & -> & -> & -> & ->).
  cbn [tasks trace files medias mediaservers delete_file emit set_files map
       list_to_set].
  rewrite <- app_assoc. repeat split. by rewrite difference_difference_l_L.
Qed.

Lemma glob_files pattern w w' :
  files w' = files w -> glob pattern w' = glob pattern w.
Proof. intros H. unfold glob. by rewrite H. Qed.

(** The before-delete rule: the download job of the item is cancelled, its
    thumbnail job too when a thumbnail URL is known, and the files the
    pattern yields are deleted. *)
Lemma media_pre_delete_effects instance w :
  let w' := media_pre_delete instance w in
  issued w w'
  = EvCancel "sync.tasks.download_media" [str (Media.pk instance)]
    :: (if truthy (thumbnail instance)
        then [EvCancel "sync.tasks.download_media_thumbnail"
                [str (Media.pk instance); default "" (thumbnail instance)]]
        else [])
    ++ map EvDeleteFile (related_files instance w)
  /\ pending "sync.tasks.download_media" [str (Media.pk instance)] (tasks w') = []
  /\ (truthy (thumbnail instance) = true ->
      pending "sync.tasks.download_media_thumbnail"
        [str (Media.pk instance); default "" (thumbnail instance)] (tasks w') = [])
  /\ files w' = files w ∖ list_to_set (related_files instance w).
Proof.
  cbv zeta. unfold media_pre_delete, related_files.
  set (w1 := delete_task_by_media "sync.tasks.download_media" _ w).
  set (w2 := if truthy (thumbnail instance) then _ else w1).
  assert (Hfiles : files w2 = files w) by (subst w2 w1; by case_if).
  assert (Htrace : trace w2
    = trace w ++ EvCancel "sync.tasks.download_media" [str (Media.pk instance)]
      :: (if truthy (thumbnail instance)
          then [EvCancel "sync.tasks.download_media_thumbnail"
                  [str (Media.pk instance); default "" (thumbnail instance)]]
          else [])).
  { subst w2 w1. case_if; cbn; by rewrite <- ?app_assoc. }
  assert (Hdl : pending "sync.tasks.download_media" [str (Media.pk instance)]
                  (tasks w2) = []).
  { subst w2 w1. case_if.
    - rewrite pending_delete_task_by_media_other by done. apply pending_drop_task.
    - apply pending_drop_task. }
  assert (Hth : truthy (thumbnail instance) = true ->
                pending "sync.tasks.download_media_thumbnail"
                  [str (Media.pk instance); default "" (thumbnail instance)]
                  (tasks w2) = []).
  { intros Hurl. subst w2. rewrite Hurl. apply pending_drop_task. }
  clearbody w2. clear w1.
  destruct (Source.delete_files_on_disk (Media.source instance)
            && (truthy (Media.media_file instance) || truthy (Media.thumb instance))).
  - rewrite (surjective_pairing (splitext _)).
    rewrite (glob_files _ w w2 Hfiles).
    match goal with |- context [foldl _ w2 ?l] =>
      destruct (foldl_delete_file l w2) as (Ht & Htr & Hf & _)
    end.
    rewrite Ht, Hf, Hfiles. repeat split; try done.
    apply issued_app. rewrite Htr, Htrace, <- app_assoc. reflexivity.
  - cbn [map list_to_set]. rewrite app_nil_r. repeat split; try done.
    + by apply issued_app.
    + by rewrite Hfiles, difference_empty_L.
Qed.

(** With a stem free of magic the before-delete rule leaves on disk no
    file made of the stem, a dot and an extension. *)
Lemma literal_stem_files_deleted instance w ext :
  Source.delete_files_on_disk (Media.source instance) = true ->
  truthy (Media.media_file instance) || truthy (Media.thumb instance) = true ->
  let filepath :=
    if truthy (Media.media_file instance)
    then default "" (Media.media_file instance)
    else default "" (Media.thumb instance) in
  let stem := (splitext filepath).1 in
  has_magic (chars stem) = false ->
  no_sep (chars ext) = true ->
  stem +:+ "." +:+ ext ∉ files (media_pre_delete instance w).
Proof.
  intros Hdelete Hreference filepath stem Hstem Hext.
  destruct (media_pre_delete_effects instance w) as (_ & _ & _ & ->).
  intros [Hdisk Hkept]%elem_of_difference. apply Hkept.
  apply elem_of_list_to_set, list_elem_of_In.
  unfold related_files. rewrite Hdelete, Hreference. cbn [andb].
  unfold glob. apply filter_In. split.
  - by apply list_elem_of_In, elem_of_elements.
  - by apply glob_literal_stem.
Qed.

Lemma pending_drop_other_args kind args args' ts :
  args <> args' ->
  pending kind args (drop_task kind args' ts) = pending kind args ts.
Proof.
  intros Hne. unfold pending, drop_task.
  induction ts as [|t ts IH]; [reflexivity|].
  cbn. destruct (has_key kind args' t) eqn:Hk'; cbn; rewrite IH; [|reflexivity].
  destruct (has_key kind args t) eqn:Hk; [|reflexivity].
  unfold has_key in Hk, Hk'.
  apply andb_prop in Hk as [_ Hk]. apply andb_prop in Hk' as [_ Hk'].
  apply bool_decide_eq_true_1 in Hk, Hk'. congruence.
Qed.

(** The after-delete rule: one rescan job for each media server, replacing
    the pending one, at the lowest priority of the table. *)
Lemma media_post_delete_effects instance w :
  let w' := media_post_delete instance w in
  issued w w' = map (fun mediaserver => EvEnqueue (rescan_job mediaserver) true)
                    (mediaservers w)
  /\ (NoDup (MediaServer.pk <$> mediaservers w) ->
      forall mediaserver, mediaserver ∈ mediaservers w ->
        pending "sync.tasks.rescan_media_server" [str (MediaServer.pk mediaserver)]
          (tasks w') = [rescan_job mediaserver])
  /\ (forall mediaserver,
        Forall (fun p => priority (rescan_job mediaserver) <= p) priority_table).
Proof.
  cbv zeta. unfold media_post_delete.
  generalize (mediaservers w) as servers. intros servers.
  split; [|split].
  - apply issued_app. revert w.
    induction servers as [|server servers IH]; intros w; cbn [foldl map].
    + by rewrite app_nil_r.
    + rewrite IH. cbn [trace rescan_media_server schedule emit set_tasks].
      by rewrite <- app_assoc.
  - revert w. induction servers as [|server servers IH]; intros w Hnodup ms Hin.
    { by apply elem_of_nil in Hin. }
    cbn [foldl]. rewrite fmap_cons in Hnodup. apply NoDup_cons in Hnodup as [Hfresh Hnodup].
    apply elem_of_cons in Hin as [->|Hin]; [|by apply IH].
    clear IH. unfold rescan_media_server at 2.
    match goal with |- context [foldl _ ?w0 servers] =>
      assert (Hkeep : pending "sync.tasks.rescan_media_server"
                        [str (MediaServer.pk server)] (tasks w0)
                      = [rescan_job server]) by apply pending_schedule_replace;
      revert Hkeep; generalize w0
    end.
    induction servers as [|other servers IH]; intros w0 Hkeep; [exact Hkeep|].
    cbn [foldl]. rewrite fmap_cons in Hfresh, Hnodup.
    apply not_elem_of_cons in Hfresh as [Hne Hfresh].
    apply NoDup_cons in Hnodup as [_ Hnodup].
    apply IH; [done..|].
    unfold rescan_media_server, schedule. cbn [tasks emit set_tasks].
    rewrite pending_app, pending_drop_other_args by (unfold str; congruence).
    rewrite Hkeep. cbn. unfold has_key. cbn [task_name task_args].
    rewrite (bool_decide_eq_false_2 ([str (MediaServer.pk other)] = _))
      by (unfold str; congruence).
    by rewrite andb_false_r.
  - intros mediaserver. unfold priority_table.
    repeat constructor; vm_compute; discriminate.
Qed.

(** * Further properties of the receivers *)

(** ** The after-save rule of Media: the flags *)

Lemma after_filter_skip instance :
  Media.skip (after_filter instance)
  = if negb (Media.downloaded instance) && truthy (Media.metadata instance)
    then should_skip instance else Media.skip instance.
Proof. unfold after_filter. case_if; [apply filter_media_skip|reflexivity]. Qed.

Lemma after_filter_frame instance :
  Media.metadata (after_filter instance) = Media.metadata instance
  /\ Media.can_download (after_filter instance) = Media.can_download instance.
Proof. unfold after_filter, filter_media. by repeat case_if. Qed.

Lemma reconcile_skip instance w :
  Media.skip (reconcile instance w).1
  = if negb (Media.downloaded instance) && truthy (Media.metadata instance)
    then should_skip instance else Media.skip instance.
Proof.
  rewrite reconcile_instance.
  destruct (normalize_frame (recomputed instance) w) as (_&_&_&_&_&_&->&_).
  rewrite recomputed_skip. apply after_filter_skip.
Qed.

Lemma reconcile_can_download instance w :
  Media.can_download (reconcile instance w).1
  = if truthy (Media.metadata instance)
    then has_valid_format (after_filter instance)
    else Media.can_download instance.
Proof.
  rewrite reconcile_instance.
  destruct (normalize_frame (recomputed instance) w) as (_&_&_&_&_&_&_&->).
  apply recomputed_can_download.
Qed.

(** X1. The filter step of the rule: an item that is not skipped by hand,
    is not marked as downloaded and has metadata comes back with [skip] set
    to the verdict of the Filter Engine; an item marked as downloaded, or
    without metadata, keeps its [skip], the Filter Engine not being asked. *)
Theorem skip_follows_the_filter fuel instance w :
  Media.manual_skip instance = false ->
  exists instance' w',
    media_post_save (S fuel) instance w = Some (instance', w')
    /\ (Media.downloaded instance = false ->
        truthy (Media.metadata instance) = true ->
        Media.skip instance' = should_skip instance)
    /\ (Media.downloaded instance = true \/ truthy (Media.metadata instance) = false ->
        Media.skip instance' = Media.skip instance).
Proof.
  intros Hmanual. rewrite media_post_save_steps, Hmanual.
  eexists _, _. split; [apply f_equal, surjective_pairing|].
  rewrite reconcile_skip. split.
  - by intros -> ->.
  - intros [-> | ->]; [reflexivity|]. by rewrite andb_false_r.
Qed.

Lemma needs_save_changed instance w :
  needs_save instance = false
  <-> Media.skip (reconcile instance w).1 = Media.skip instance
      /\ Media.can_download (reconcile instance w).1 = Media.can_download instance.
Proof.
  rewrite reconcile_skip, reconcile_can_download.
  unfold needs_save, skip_changed, can_download_changed.
  rewrite filter_media_changed.
  destruct (after_filter_frame instance) as (-> & ->).
  unfold has_valid_format.
  destruct (Media.downloaded instance), (truthy (Media.metadata instance)),
    (Media.skip instance), (should_skip instance),
    (Media.can_download instance),
    (truthy (get_format_str (after_filter instance)));
    cbn; repeat case_bool_decide; cbn;
    split; (intros [? ?] || intros ?); try split; congruence.
Qed.

(** X2. The rule writes the row of an item that is not skipped by hand
    exactly when the instance it returns differs from the one it received
    in [skip] or in [can_download]: a run that changes neither flag writes
    nothing, and a run that changes one writes. *)
Theorem row_written_iff_flags_changed fuel instance w :
  Media.manual_skip instance = false ->
  exists instance' w',
    media_post_save (S fuel) instance w = Some (instance', w')
    /\ (media_rows_written (issued w w') = []
        <-> Media.skip instance' = Media.skip instance
            /\ Media.can_download instance' = Media.can_download instance).
Proof.
  intros Hmanual. rewrite media_post_save_steps, Hmanual.
  eexists _, _. split; [apply f_equal, surjective_pairing|].
  rewrite <- needs_save_changed.
  rewrite reconcile_issued, !media_rows_written_app.
  destruct (media_rows_written_jobs (recomputed instance) w) as (->&_&_).
  destruct (media_rows_written_jobs (normalize_thumb (recomputed instance) w) w)
    as (_&->&_).
  destruct (media_rows_written_jobs (reconcile instance w).1 w) as (_&_&->).
  unfold corrective_events. by destruct (needs_save instance).
Qed.

(** ** The after-save rule of Media: the jobs *)

Lemma normalize_thumb_frame instance w :
  let m := normalize_thumb instance w in
  Media.pk m = Media.pk instance /\ Media.source m = Media.source instance
  /\ Media.name m = Media.name instance
  /\ Media.skip m = Media.skip instance
  /\ Media.can_download m = Media.can_download instance
  /\ Media.downloaded m = Media.downloaded instance
  /\ Media.media_file m = Media.media_file instance
  /\ Media.thumb m = (if thumb_file_exists instance w then Media.thumb instance else None).
Proof. unfold normalize_thumb. by destruct (thumb_file_exists instance w). Qed.

Lemma normalize_media_file_frame instance w :
  let m := normalize_media_file instance w in
  Media.thumb m = Media.thumb instance
  /\ Media.skip m = Media.skip instance
  /\ Media.downloaded m = Media.downloaded instance && media_file_exists instance w
  /\ Media.media_file m
     = (if media_file_exists instance w then Media.media_file instance else None).
Proof.
  unfold normalize_media_file.
  destruct (media_file_exists instance w); cbn; by rewrite ?andb_true_r, ?andb_false_r.
Qed.

Lemma thumb_file_exists_recomputed instance w :
  thumb_file_exists (recomputed instance) w = thumb_file_exists instance w.
Proof.
  unfold thumb_file_exists.
  by destruct (recomputed_frame instance) as (_&_&_&_&_&_&_&_&->).
Qed.

Lemma reconcile_thumb instance w :
  Media.thumb (reconcile instance w).1
  = if thumb_file_exists instance w then Media.thumb instance else None.
Proof.
  rewrite reconcile_instance.
  destruct (normalize_media_file_frame (normalize_thumb (recomputed instance) w) w)
    as (-> & _).
  destruct (normalize_thumb_frame (recomputed instance) w) as (_&_&_&_&_&_&_&->).
  rewrite thumb_file_exists_recomputed.
  by destruct (recomputed_frame instance) as (_&_&_&_&_&_&_&_&->).
Qed.

Lemma commands_for_metadata_events kind instance w :
  kind <> "sync.tasks.download_media_metadata" ->
  commands_for kind (metadata_events instance w) = [].
Proof.
  intros Hne. unfold metadata_events. case_if; [|reflexivity].
  cbn. by rewrite bool_decide_eq_false_2 by congruence.
Qed.

Lemma commands_for_thumbnail_events kind instance :
  kind <> "sync.tasks.download_media_thumbnail" ->
  commands_for kind (thumbnail_events instance) = [].
Proof.
  intros Hne. unfold thumbnail_events. case_if; [|reflexivity].
  cbn. by rewrite bool_decide_eq_false_2 by congruence.
Qed.

Lemma commands_for_download_events kind instance :
  kind <> "sync.tasks.download_media" ->
  commands_for kind (download_events instance) = [].
Proof.
  intros Hne. unfold download_events. case_if; [|reflexivity].
  cbn. by rewrite !bool_decide_eq_false_2 by congruence.
Qed.

Lemma pending_schedule_thumbnail instance w :
  wants_thumbnail instance = true ->
  pending "sync.tasks.download_media_thumbnail"
    [str (Media.pk instance); default "" (thumbnail instance)]
    (tasks (schedule_thumbnail instance w))
  = [thumbnail_job instance].
Proof.
  intros Hwants. rewrite tasks_schedule_thumbnail, Hwants.
  rewrite pending_app, pending_drop_task.
  apply (pending_own_job (thumbnail_job instance)).
Qed.

(** X3. The thumbnail step of the rule, for an item that is not skipped by
    hand.  The returned instance keeps its thumbnail reference when the
    file is on disk and has none otherwise.  A thumbnail job is enqueued,
    replacing the pending one, exactly when the item is then without
    thumbnail, is not skipped and a thumbnail URL is known for it; the job
    carries the item id and the URL, sits in the queue of the owning Source
    at priority 10, and is then the only pending job of its key. *)
Theorem thumbnail_scheduling fuel instance w :
  Media.manual_skip instance = false ->
  let at_thumbnail := normalize_thumb (recomputed instance) w in
  exists instance' w',
    media_post_save (S fuel) instance w = Some (instance', w')
    /\ Media.thumb instance'
       = (if thumb_file_exists instance w then Media.thumb instance else None)
    /\ commands_for "sync.tasks.download_media_thumbnail" (issued w w')
       = (if negb (truthy (Media.thumb instance')) && negb (Media.skip instance')
             && truthy (thumbnail at_thumbnail)
          then [EvEnqueue (thumbnail_job at_thumbnail) true] else [])
    /\ task_args (thumbnail_job at_thumbnail)
       = [str (Media.pk instance); default "" (thumbnail at_thumbnail)]
    /\ queue (thumbnail_job at_thumbnail)
       = Some (str (Source.pk (Media.source instance)))
    /\ priority (thumbnail_job at_thumbnail) = 10
    /\ (negb (truthy (Media.thumb instance')) && negb (Media.skip instance')
        && truthy (thumbnail at_thumbnail) = true ->
        pending "sync.tasks.download_media_thumbnail"
          (task_args (thumbnail_job at_thumbnail)) (tasks w')
        = [thumbnail_job at_thumbnail]).
Proof.
  intros Hmanual at_thumbnail. rewrite media_post_save_steps, Hmanual.
  eexists _, _. split; [apply f_equal, surjective_pairing|].
  split; [apply reconcile_thumb|].
  assert (Hwants : negb (truthy (Media.thumb (reconcile instance w).1))
                   && negb (Media.skip (reconcile instance w).1)
                   && truthy (thumbnail at_thumbnail)
                   = wants_thumbnail at_thumbnail).
  { rewrite reconcile_instance. fold at_thumbnail.
    by destruct (normalize_media_file_frame at_thumbnail w) as (-> & -> & _). }
  rewrite Hwants.
  destruct (normalize_thumb_frame (recomputed instance) w) as (Hpk & Hsource & _).
  destruct (recomputed_frame instance) as (Hpk' & Hsource' & _).
  split; [|split; [|split; [|split]]].
  - rewrite reconcile_issued, !commands_for_app, commands_for_corrective.
    rewrite commands_for_metadata_events, commands_for_download_events by done.
    fold at_thumbnail. unfold thumbnail_events.
    case_if; [|reflexivity]. reflexivity.
  - cbn [task_args thumbnail_job]. fold at_thumbnail in Hpk. by rewrite Hpk, Hpk'.
  - cbn [queue thumbnail_job]. fold at_thumbnail in Hsource.
    by rewrite Hsource, Hsource'.
  - reflexivity.
  - intros Hyes. rewrite reconcile_unfold. cbv zeta. cbn [snd].
    rewrite pending_schedule_download_other by done.
    fold at_thumbnail. by apply pending_schedule_thumbnail.
Qed.

Lemma registry_commands_app evs1 evs2 :
  registry_commands (evs1 ++ evs2) = registry_commands evs1 ++ registry_commands evs2.
Proof. apply List.filter_app. Qed.

Lemma registry_commands_corrective instance :
  registry_commands (corrective_events instance) = [].
Proof. unfold corrective_events. by case_if. Qed.

Lemma reconcile_skipped instance w :
  Media.skip (reconcile instance w).1 = true ->
  registry_commands (issued w (reconcile instance w).2) = []
  /\ tasks (reconcile instance w).2 = tasks w.
Proof.
  intros Hskip.
  assert (Hrecomputed : Media.skip (recomputed instance) = true).
  { rewrite reconcile_instance in Hskip.
    by destruct (normalize_frame (recomputed instance) w) as (_&_&_&_&_&_&<-&_). }
  assert (Hmetadata : wants_metadata (recomputed instance) w = false).
  { unfold wants_metadata. rewrite Hrecomputed. cbn. by rewrite andb_false_r. }
  assert (Hthumbnail : wants_thumbnail (normalize_thumb (recomputed instance) w) = false).
  { unfold wants_thumbnail.
    destruct (normalize_thumb_frame (recomputed instance) w) as (_&_&_&->&_).
    rewrite Hrecomputed. cbn. by rewrite andb_false_r. }
  assert (Hdownload : eligible (reconcile instance w).1 = false).
  { unfold eligible. rewrite Hskip. cbn. by rewrite andb_false_r. }
  split.
  - rewrite reconcile_issued, !registry_commands_app, registry_commands_corrective.
    unfold metadata_events, thumbnail_events, download_events.
    by rewrite Hmetadata, Hthumbnail, Hdownload.
  - rewrite reconcile_instance in Hdownload.
    rewrite reconcile_unfold. cbv zeta. cbn [snd].
    rewrite tasks_schedule_download, Hdownload.
    rewrite tasks_schedule_thumbnail, Hthumbnail.
    rewrite tasks_schedule_metadata.
    rewrite (wants_metadata_tasks _ w) by apply tasks_corrective_save.
    rewrite Hmetadata. apply tasks_corrective_save.
Qed.

(** X4. A skipped item gets no job: when the instance the rule returns has
    [skip] set, the run has sent the Task Registry no command at all,
    neither for metadata nor for the thumbnail nor for the download, and
    the pending jobs are as they were. *)
Theorem skipped_item_gets_no_job fuel instance w :
  exists instance' w',
    media_post_save (S fuel) instance w = Some (instance', w')
    /\ (Media.skip instance' = true ->
        registry_commands (issued w w') = [] /\ tasks w' = tasks w).
Proof.
  rewrite media_post_save_steps.
  destruct (Media.manual_skip instance).
  { eexists _, _. split; [reflexivity|]. intros _. split; [|reflexivity].
    unfold issued. by rewrite drop_all. }
  eexists _, _. split; [apply f_equal, surjective_pairing|].
  apply reconcile_skipped.
Qed.

(** ** The after-save rule of Media: what it leaves alone *)

Lemma reconcile_files instance w :
  files (reconcile instance w).2 = files w
  /\ sources (reconcile instance w).2 = sources w
  /\ mediaservers (reconcile instance w).2 = mediaservers w.
Proof.
  unfold reconcile. cbn [snd].
  unfold schedule_download, schedule_thumbnail, schedule_metadata, corrective_save.
  by repeat case_if.
Qed.

Lemma truthy_exists_thumb instance w :
  thumb_file_exists instance w = true -> truthy (Media.thumb instance) = true.
Proof.
  unfold thumb_file_exists. destruct (Media.thumb instance); [|discriminate].
  by intros [? _]%andb_prop.
Qed.

Lemma truthy_exists_media_file instance w :
  media_file_exists instance w = true -> truthy (Media.media_file instance) = true.
Proof.
  unfold media_file_exists. destruct (Media.media_file instance); [|discriminate].
  by intros [? _]%andb_prop.
Qed.

Lemma thumb_file_exists_normalized instance w :
  thumb_file_exists (normalize_thumb instance w) w
  = truthy (Media.thumb (normalize_thumb instance w)).
Proof.
  unfold normalize_thumb.
  destruct (thumb_file_exists instance w) eqn:Hexists; cbn [negb].
  - rewrite Hexists. symmetry. by apply truthy_exists_thumb with w.
  - reflexivity.
Qed.

Lemma media_file_exists_normalized instance w :
  media_file_exists (normalize_media_file instance w) w
  = truthy (Media.media_file (normalize_media_file instance w)).
Proof.
  unfold normalize_media_file.
  destruct (media_file_exists instance w) eqn:Hexists; cbn [negb].
  - rewrite Hexists. symmetry. by apply truthy_exists_media_file with w.
  - reflexivity.
Qed.

(** X5. After a run on an item that is not skipped by hand, the returned
    instance names no file that is not on disk: it has a thumbnail
    reference exactly when its thumbnail file exists, a media file
    reference exactly when its media file exists, and it is marked as
    downloaded only if its media file exists. *)
Theorem references_point_to_files fuel instance w :
  Media.manual_skip instance = false ->
  exists instance' w',
    media_post_save (S fuel) instance w = Some (instance', w')
    /\ thumb_file_exists instance' w' = truthy (Media.thumb instance')
    /\ media_file_exists instance' w' = truthy (Media.media_file instance')
    /\ (Media.downloaded instance' = true -> media_file_exists instance' w' = true).
Proof.
  intros Hmanual. rewrite media_post_save_steps, Hmanual.
  eexists _, _. split; [apply f_equal, surjective_pairing|].
  destruct (reconcile_files instance w) as (Hfiles & _).
  rewrite (thumb_file_exists_files _ w _ Hfiles), (media_file_exists_files _ w _ Hfiles).
  rewrite reconcile_instance.
  set (m := normalize_thumb (recomputed instance) w).
  destruct (normalize_media_file_frame m w) as (Hthumb & _ & Hdownloaded & _).
  split; [|split].
  - rewrite Hthumb. unfold thumb_file_exists. rewrite Hthumb.
    apply (thumb_file_exists_normalized (recomputed instance) w).
  - apply media_file_exists_normalized.
  - rewrite Hdownloaded. intros [_ Hexists]%andb_prop.
    unfold normalize_media_file. by rewrite Hexists.
Qed.

Lemma pending_drop_other_key kind args kind' args' ts :
  args <> args' ->
  pending kind args (drop_task kind' args' ts) = pending kind args ts.
Proof.
  intros Hne. unfold pending, drop_task.
  induction ts as [|t ts IH]; [reflexivity|].
  cbn. destruct (has_key kind' args' t) eqn:Hk'; cbn; rewrite IH; [|reflexivity].
  destruct (has_key kind args t) eqn:Hk; [|reflexivity].
  unfold has_key in Hk, Hk'.
  apply andb_prop in Hk as [_ Hk]. apply andb_prop in Hk' as [_ Hk'].
  apply bool_decide_eq_true_1 in Hk, Hk'. congruence.
Qed.

Lemma pending_schedule_other_key kind args kind' args' q p r v b w :
  args <> args' ->
  pending kind args (tasks (schedule kind' args' q p r v b w))
  = pending kind args (tasks w).
Proof.
  intros Hne. unfold schedule. cbn [tasks emit set_tasks].
  rewrite pending_app.
  assert (pending kind args [mkTask kind' args' q p r v] = []) as ->.
  { cbn. unfold has_key. cbn [task_args].
    rewrite (bool_decide_eq_false_2 (args' = args)) by congruence.
    by rewrite andb_false_r. }
  rewrite app_nil_r. destruct b; [by apply pending_drop_other_key|reflexivity].
Qed.

Lemma reconcile_pending_other instance w kind args :
  head args <> Some (str (Media.pk instance)) ->
  pending kind args (tasks (reconcile instance w).2) = pending kind args (tasks w).
Proof.
  intros Hother.
  assert (forall rest, args <> str (Media.pk instance) :: rest) as Hne
    by (intros rest ->; by apply Hother).
  rewrite reconcile_unfold. cbv zeta. cbn [snd].
  set (m3 := normalize_thumb (recomputed instance) w).
  set (m4 := normalize_media_file m3 w).
  assert (Hpk3 : Media.pk m3 = Media.pk instance).
  { unfold m3.
    destruct (normalize_thumb_frame (recomputed instance) w) as (-> & _).
    by destruct (recomputed_frame instance) as (-> & _). }
  assert (Hpk4 : Media.pk m4 = Media.pk instance).
  { rewrite <- (reconcile_pk instance w), reconcile_instance. reflexivity. }
  unfold schedule_download. rewrite Hpk4.
  assert (forall w0,
            pending kind args
              (tasks (if eligible m4
                      then download_media (str (Media.pk instance))
                             (str (Source.pk (Media.source m4)))
                             priority_download_media
                             (format "Downloading media for " (Media.name m4)) true
                             (delete_task_by_media "sync.tasks.download_media"
                                [str (Media.pk instance)] w0)
                      else w0))
            = pending kind args (tasks w0)) as ->.
  { intros w0. case_if; [|reflexivity].
    unfold download_media. rewrite pending_schedule_other_key by apply Hne.
    cbn. by apply pending_drop_other_key. }
  unfold schedule_thumbnail. rewrite Hpk3.
  assert (forall w0,
            pending kind args
              (tasks (if negb (truthy (Media.thumb m3)) && negb (Media.skip m3)
                      then if truthy (thumbnail m3)
                           then download_media_thumbnail (str (Media.pk instance))
                                  (default "" (thumbnail m3))
                                  (str (Source.pk (Media.source m3)))
                                  priority_download_media_thumbnail
                                  (format "Downloading thumbnail for " (Media.name m3))
                                  true w0
                           else w0
                      else w0))
            = pending kind args (tasks w0)) as ->.
  { intros w0. repeat case_if; try reflexivity.
    unfold download_media_thumbnail. by apply pending_schedule_other_key. }
  unfold schedule_metadata.
  destruct (recomputed_frame instance) as (-> & _).
  assert (forall w0 (b : bool),
            pending kind args
              (tasks (if b
                      then download_media_metadata (str (Media.pk instance))
                             priority_download_media_metadata
                             (format "Downloading metadata for " (Media.pk instance))
                             true w0
                      else w0))
            = pending kind args (tasks w0)) as ->.
  { intros w0 b. destruct b; [|reflexivity].
    unfold download_media_metadata. by apply pending_schedule_other_key. }
  by rewrite tasks_corrective_save.
Qed.

(** X6. What a run of the rule leaves alone, whatever the item: the files on
    disk, the Source rows and the media servers; the row of every other
    Media item; the pending jobs of every key that does not start with the
    id of the item; and, on the returned instance, the identity of the
    item, its Source, name, URL, metadata and [manual_skip]. *)
Theorem rule_touches_its_item_only fuel instance w :
  exists instance' w',
    media_post_save (S fuel) instance w = Some (instance', w')
    /\ files w' = files w /\ sources w' = sources w
    /\ mediaservers w' = mediaservers w
    /\ (forall pk, pk <> Media.pk instance -> medias w' !! pk = medias w !! pk)
    /\ (forall kind args,
          head args <> Some (str (Media.pk instance)) ->
          pending kind args (tasks w') = pending kind args (tasks w))
    /\ Media.pk instance' = Media.pk instance
    /\ Media.source instance' = Media.source instance
    /\ Media.name instance' = Media.name instance
    /\ Media.url instance' = Media.url instance
    /\ Media.metadata instance' = Media.metadata instance
    /\ Media.manual_skip instance' = Media.manual_skip instance.
Proof.
  rewrite media_post_save_steps.
  destruct (Media.manual_skip instance) eqn:Hmanual.
  { eexists _, _. split; [reflexivity|]. by rewrite Hmanual. }
  eexists _, _. split; [apply f_equal, surjective_pairing|].
  destruct (reconcile_files instance w) as (-> & -> & ->).
  split; [reflexivity|]. split; [reflexivity|]. split; [reflexivity|].
  split.
  { intros pk Hpk. rewrite reconcile_medias. case_if; [|reflexivity].
    by rewrite lookup_insert_ne. }
  split; [intros kind args; apply reconcile_pending_other|].
  rewrite reconcile_instance.
  destruct (normalize_frame (recomputed instance) w) as (->&->&->&->&->&->&_).
  destruct (recomputed_frame instance) as (->&->&->&->&->&->&_).
  by rewrite Hmanual.
Qed.

(** X7. The download step runs only for an eligible item: when the returned
    instance is marked as downloaded, or cannot be downloaded, or is
    skipped, or its Source has [download_media] off, the run sends no
    command about download jobs, so that a pending download job of the
    item is neither cancelled nor replaced. *)
Theorem no_download_unless_eligible fuel instance w :
  Media.manual_skip instance = false ->
  exists instance' w',
    media_post_save (S fuel) instance w = Some (instance', w')
    /\ (Media.downloaded instance' = true \/ Media.can_download instance' = false
        \/ Media.skip instance' = true
        \/ Source.download_media (Media.source instance') = false ->
        commands_for "sync.tasks.download_media" (issued w w') = []
        /\ pending "sync.tasks.download_media" [str (Media.pk instance)] (tasks w')
           = pending "sync.tasks.download_media" [str (Media.pk instance)] (tasks w)).
Proof.
  intros Hmanual. rewrite media_post_save_steps, Hmanual.
  eexists _, _. split; [apply f_equal, surjective_pairing|].
  intros Hnot.
  assert (Heligible : eligible (reconcile instance w).1 = false).
  { unfold eligible. destruct Hnot as [-> | [-> | [-> | ->]]]; cbn;
      by rewrite ?andb_false_r. }
  split.
  - rewrite reconcile_issued, !commands_for_app, commands_for_corrective.
    rewrite commands_for_metadata_events, commands_for_thumbnail_events by done.
    unfold download_events. by rewrite Heligible.
  - by rewrite reconcile_pending_download, Heligible.
Qed.

(** ** Saving a Media item, and saving it again *)

Lemma set_flags_same instance :
  Media.set_can_download (Media.can_download instance)
    (Media.set_skip (Media.skip instance) instance) = instance.
Proof. by destruct instance. Qed.

Lemma recomputed_flags instance w :
  Media.skip (recomputed instance) = Media.skip (reconcile instance w).1
  /\ Media.can_download (recomputed instance)
     = Media.can_download (reconcile instance w).1.
Proof.
  rewrite reconcile_instance.
  by destruct (normalize_frame (recomputed instance) w) as (_&_&_&_&_&_&->&->).
Qed.

(** X8. Saving a Media item while the receiver is connected leaves, under
    the id of the item, the row of the saved instance with [skip] and
    [can_download] as on the instance the save returns: after a save the
    persisted flags are the recomputed ones, and every other field of the
    row is as it was saved. *)
Theorem saved_row_agrees_with_instance fuel instance w :
  media_post_save_connected w = true ->
  exists instance' w',
    Media_save (media_post_save (S fuel)) instance w = Some (instance', w')
    /\ medias w' !! Media.pk instance
       = Some (Media.set_can_download (Media.can_download instance')
                 (Media.set_skip (Media.skip instance') instance)).
Proof.
  intros Hconnected. unfold Media_save.
  set (w1 := write_media instance w).
  assert (media_post_save_connected w1 = true) as -> by exact Hconnected.
  assert (Hrow : medias w1 !! Media.pk instance = Some instance)
    by apply lookup_insert_eq.
  rewrite media_post_save_steps.
  destruct (Media.manual_skip instance).
  { eexists _, _. split; [reflexivity|]. by rewrite set_flags_same. }
  eexists _, _. split; [apply f_equal, surjective_pairing|].
  rewrite reconcile_medias.
  destruct (recomputed_flags instance w1) as (Hskip & Hcan).
  destruct (needs_save instance) eqn:Hsave.
  - rewrite lookup_insert_eq, <- Hskip, <- Hcan. f_equal.
    apply recomputed_as_update.
  - apply (needs_save_changed instance w1) in Hsave as (-> & ->).
    by rewrite set_flags_same.
Qed.

Lemma recomputed_fixed instance :
  needs_save instance = false -> recomputed instance = instance.
Proof.
  intros Hsave.
  destruct (recomputed_flags instance (world_of instance)) as (Hskip & Hcan).
  apply (needs_save_changed instance (world_of instance)) in Hsave as (Hs & Hc).
  rewrite recomputed_as_update, Hskip, Hcan, Hs, Hc. apply set_flags_same.
Qed.

Lemma normalize_thumb_fixed instance w :
  (thumb_file_exists instance w = false -> Media.thumb instance = None) ->
  normalize_thumb instance w = instance.
Proof.
  intros Hnone. unfold normalize_thumb.
  destruct (thumb_file_exists instance w); [reflexivity|].
  cbn [negb]. specialize (Hnone eq_refl). destruct instance. cbn in *. by subst.
Qed.

Lemma normalize_media_file_fixed instance w :
  (media_file_exists instance w = false ->
   Media.media_file instance = None /\ Media.downloaded instance = false) ->
  normalize_media_file instance w = instance.
Proof.
  intros Hnone. unfold normalize_media_file.
  destruct (media_file_exists instance w); [reflexivity|].
  cbn [negb]. destruct (Hnone eq_refl). destruct instance. cbn in *. by subst.
Qed.

(** The instance a run returns has nothing left to normalize. *)
Lemma reconcile_at_rest instance w w' :
  files w' = files w ->
  let m := (reconcile instance w).1 in
  (thumb_file_exists m w' = false -> Media.thumb m = None)
  /\ (media_file_exists m w' = false ->
      Media.media_file m = None /\ Media.downloaded m = false)
  /\ (Media.downloaded m = true -> media_file_exists m w' = true).
Proof.
  intros Hfiles. cbv zeta.
  rewrite (thumb_file_exists_files _ w w' Hfiles),
    (media_file_exists_files _ w w' Hfiles).
  rewrite reconcile_instance.
  set (m3 := normalize_thumb (recomputed instance) w).
  destruct (normalize_media_file_frame m3 w) as (Hthumb & _ & Hdownloaded & Hfile).
  assert (Hexists : media_file_exists (normalize_media_file m3 w) w
                    = media_file_exists m3 w).
  { unfold media_file_exists at 1. rewrite Hfile.
    destruct (media_file_exists m3 w) eqn:He; [exact He|reflexivity]. }
  split; [|split].
  - unfold thumb_file_exists. rewrite Hthumb.
    fold (thumb_file_exists m3 w). unfold m3.
    rewrite thumb_file_exists_normalized.
    unfold normalize_thumb.
    destruct (thumb_file_exists (recomputed instance) w) eqn:He; cbn [negb].
    + intros Hfalse. apply truthy_exists_thumb in He. congruence.
    + reflexivity.
  - rewrite Hexists, Hfile, Hdownloaded. intros ->. by rewrite andb_false_r.
  - rewrite Hexists, Hdownloaded. by intros [_ ?]%andb_prop.
Qed.

Lemma reconcile_same_inputs instance w :
  same_inputs instance (reconcile instance w).1.
Proof.
  unfold same_inputs. rewrite reconcile_instance.
  destruct (normalize_frame (recomputed instance) w) as (->&->&->&->&->&->&_).
  by destruct (recomputed_frame instance) as (->&->&->&->&->&->&_).
Qed.

Lemma after_filter_same_inputs instance :
  same_inputs instance (after_filter instance).
Proof. unfold same_inputs, after_filter, filter_media. by repeat case_if. Qed.

Lemma same_inputs_trans a b c : same_inputs a b -> same_inputs b c -> same_inputs a c.
Proof. unfold same_inputs. intuition congruence. Qed.

Lemma same_inputs_sym a b : same_inputs a b -> same_inputs b a.
Proof. unfold same_inputs. intuition congruence. Qed.

(** X9. With collaborators whose verdicts depend only on fields the rule
    does not write, two successive runs bring an item to rest: run on the
    instance and world the second run returned, the rule returns that very
    instance and writes no row. *)
Theorem rule_settles_in_two_runs fuel instance w :
  (forall a b, same_inputs a b -> should_skip a = should_skip b) ->
  (forall a b, same_inputs a b -> get_format_str a = get_format_str b) ->
  exists instance2 w2 w3,
    media_post_save_n (S fuel) 2 instance w = Some (instance2, w2)
    /\ media_post_save (S fuel) instance2 w2 = Some (instance2, w3)
    /\ media_rows_written (issued w2 w3) = [].
Proof.
  intros Hfilter Hformat. cbn [media_post_save_n].
  rewrite (media_post_save_steps fuel instance w).
  destruct (Media.manual_skip instance) eqn:Hmanual.
  { cbn [mbind option_bind]. rewrite media_post_save_steps, Hmanual.
    cbn [mbind option_bind]. exists instance, w, w.
    split; [reflexivity|]. rewrite media_post_save_steps, Hmanual.
    split; [reflexivity|]. unfold issued. by rewrite drop_all. }
  cbn [mbind option_bind].
  rewrite (surjective_pairing (reconcile instance w)).
  set (i1 := (reconcile instance w).1). set (w1 := (reconcile instance w).2).
  assert (Hmanual1 : Media.manual_skip i1 = false).
  { destruct (reconcile_same_inputs instance w) as (_&_&_&_&_&Hsame).
    unfold i1. by rewrite <- Hsame. }
  rewrite (media_post_save_steps fuel i1 w1), Hmanual1. cbn [mbind option_bind].
  rewrite (surjective_pairing (reconcile i1 w1)).
  set (i2 := (reconcile i1 w1).1). set (w2 := (reconcile i1 w1).2).
  assert (Hmanual2 : Media.manual_skip i2 = false).
  { destruct (reconcile_same_inputs i1 w1) as (_&_&_&_&_&Hsame).
    unfold i2. by rewrite <- Hsame. }
  assert (Hfiles1 : files w1 = files w) by apply reconcile_files.
  assert (Hfiles2 : files w2 = files w1) by apply reconcile_files.
  destruct (reconcile_at_rest instance w w1 Hfiles1) as (_ & _ & Hon_disk).
  fold i1 in Hon_disk.
  assert (Hsettled : needs_save i2 = false).
  { apply needs_save_settled.
    - intros Hrun. unfold i2 at 1. rewrite reconcile_skip.
      assert (negb (Media.downloaded i1) && truthy (Media.metadata i1) = true) as ->.
      { apply andb_prop in Hrun as [Hdl Hmd]. apply andb_true_intro. split.
        - destruct (Media.downloaded i1) eqn:Hdl1; [|reflexivity].
          exfalso. unfold i2 in Hdl. rewrite reconcile_instance in Hdl.
          destruct (normalize_media_file_frame (normalize_thumb (recomputed i1) w1) w1)
            as (_ & _ & Hd & _).
          rewrite Hd, media_file_exists_recomputed in Hdl.
          destruct (normalize_thumb_frame (recomputed i1) w1) as (_&_&_&_&_&Hd'&_).
          rewrite Hd' in Hdl.
          destruct (recomputed_frame i1) as (_&_&_&_&_&_&Hd''&_).
          rewrite Hd'', Hdl1, (Hon_disk eq_refl) in Hdl. discriminate.
        - destruct (reconcile_same_inputs i1 w1) as (_&_&_&_&->&_). exact Hmd. }
      apply Hfilter, reconcile_same_inputs.
    - intros Hmd. unfold i2 at 1. rewrite reconcile_can_download.
      destruct (reconcile_same_inputs i1 w1) as (_&_&_&_&Hmd1&_).
      fold i2 in Hmd1. rewrite Hmd1, Hmd. unfold has_valid_format. f_equal.
      apply Hformat.
      apply same_inputs_trans with i1;
        [apply same_inputs_sym, after_filter_same_inputs|apply reconcile_same_inputs]. }
  exists i2, w2, (reconcile i2 w2).2.
  split; [reflexivity|].
  rewrite media_post_save_steps, Hmanual2.
  destruct (reconcile_at_rest i1 w1 w2 Hfiles2) as (Hthumb & Hfile & _).
  fold i2 in Hthumb, Hfile.
  assert (Hsame : (reconcile i2 w2).1 = i2).
  { rewrite reconcile_instance, (recomputed_fixed i2 Hsettled).
    rewrite (normalize_thumb_fixed i2 w2 Hthumb).
    apply (normalize_media_file_fixed i2 w2 Hfile). }
  split.
  - clearbody i2 w2. rewrite <- Hsame at 2. by rewrite <- surjective_pairing.
  - rewrite reconcile_issued, !media_rows_written_app.
    destruct (media_rows_written_jobs (recomputed i2) w2) as (->&_&_).
    destruct (media_rows_written_jobs (normalize_thumb (recomputed i2) w2) w2)
      as (_&->&_).
    destruct (media_rows_written_jobs (reconcile i2 w2).1 w2) as (_&_&->).
    unfold corrective_events. by rewrite Hsettled.
Qed.

(** ** Saving a Source *)

Lemma pending_delete_task_by_source_other kind args kind' source_id w :
  kind <> kind' ->
  pending kind args (tasks (delete_task_by_source kind' source_id w))
  = pending kind args (tasks w).
Proof. intros Hne. cbn. by apply pending_drop_other. Qed.

(** Saving a Source whose row has the same schedule. *)
Lemma Source_save_same_schedule instance existing_source w :
  sources w !! Source.pk instance = Some existing_source ->
  Source.index_schedule existing_source = Source.index_schedule instance ->
  let w' := Source_save instance w in
  issued w w' = [EvSaveSource instance; EvEnqueue (reconcile_job instance) true]
  /\ sources w' !! Source.pk instance = Some instance
  /\ pending "sync.tasks.save_all_media_for_source" [str (Source.pk instance)] (tasks w')
     = [reconcile_job instance]
  /\ (forall args,
        pending "sync.tasks.index_source_task" args (tasks w')
        = pending "sync.tasks.index_source_task" args (tasks w)).
Proof.
  intros Hrow Hsame. cbv zeta.
  assert (Hpre : source_pre_save instance w = w).
  { unfold source_pre_save. rewrite Hrow.
    by rewrite bool_decide_eq_false_2 by (by intros Hne). }
  unfold Source_save. rewrite Hpre, Hrow.
  rewrite bool_decide_eq_false_2 by discriminate.
  unfold source_post_save.
  split; [|split; [|split]].
  - apply issued_app. cbn. by rewrite <- app_assoc.
  - cbn. apply lookup_insert_eq.
  - apply pending_schedule_replace.
  - intros args. unfold save_all_media_for_source.
    by rewrite pending_schedule_other.
Qed.

(** X10. Saving a Source that has a row with the same [index_schedule]
    writes the row and enqueues the reconciliation of its media, replacing
    the pending one, and does nothing else: no indexing job, of this or
    another Source, is cancelled or enqueued. *)
Theorem source_update_only_reconciles instance existing_source w :
  sources w !! Source.pk instance = Some existing_source ->
  Source.index_schedule existing_source = Source.index_schedule instance ->
  let w' := Source_save instance w in
  issued w w' = [EvSaveSource instance; EvEnqueue (reconcile_job instance) true]
  /\ sources w' !! Source.pk instance = Some instance
  /\ pending "sync.tasks.save_all_media_for_source" [str (Source.pk instance)] (tasks w')
     = [reconcile_job instance]
  /\ (forall args,
        pending "sync.tasks.index_source_task" args (tasks w')
        = pending "sync.tasks.index_source_task" args (tasks w)).
Proof.
  intros Hrow Hsame. cbv zeta.
  assert (Hpre : source_pre_save instance w = w).
  { unfold source_pre_save. rewrite Hrow.
    by rewrite bool_decide_eq_false_2 by (by intros Hne). }
  unfold Source_save. rewrite Hpre, Hrow.
  rewrite bool_decide_eq_false_2 by discriminate.
  unfold source_post_save.
  split; [|split; [|split]].
  - apply issued_app. cbn. by rewrite <- app_assoc.
  - cbn. apply lookup_insert_eq.
  - apply pending_schedule_replace.
  - intros args. unfold save_all_media_for_source.
    by rewrite pending_schedule_other.
Qed.

(** X11. Saving a Source that has a row with another [index_schedule]
    recreates the indexing job before the row is written: the pending
    indexing job of the Source is cancelled, one is enqueued that repeats
    at the new interval, then the row is written and the reconciliation
    enqueued.  The new value is not looked at: a schedule set to 0 also
    leaves one pending indexing job, which repeats at 0. *)
Theorem source_update_reschedules instance existing_source w :
  sources w !! Source.pk instance = Some existing_source ->
  Source.index_schedule existing_source <> Source.index_schedule instance ->
  let w' := Source_save instance w in
  issued w w'
  = [EvCancel "sync.tasks.index_source_task" [str (Source.pk instance)];
     EvEnqueue (index_job instance) true;
     EvSaveSource instance;
     EvEnqueue (reconcile_job instance) true]
  /\ pending "sync.tasks.index_source_task" [str (Source.pk instance)] (tasks w')
     = [index_job instance]
  /\ repeat (index_job instance) = Source.index_schedule instance.
Proof.
  intros Hrow Hchanged. cbv zeta.
  unfold Source_save.
  assert (Hpre : source_pre_save instance w
                 = index_source_task (str (Source.pk instance))
                     (Source.index_schedule instance) (str (Source.pk instance))
                     priority_index_source_task
                     (format "Index media from source " (Source.name instance)) true
                     (delete_task_by_source "sync.tasks.index_source_task"
                        (Source.pk instance) w)).
  { unfold source_pre_save. rewrite Hrow. by rewrite bool_decide_eq_true_2. }
  rewrite Hpre.
  assert (sources (index_source_task (str (Source.pk instance))
                     (Source.index_schedule instance) (str (Source.pk instance))
                     priority_index_source_task
                     (format "Index media from source " (Source.name instance)) true
                     (delete_task_by_source "sync.tasks.index_source_task"
                        (Source.pk instance) w)) = sources w) as -> by reflexivity.
  rewrite Hrow, bool_decide_eq_false_2 by discriminate.
  unfold source_post_save.
  split; [|split; [|reflexivity]].
  - apply issued_app. cbn. by rewrite <- !app_assoc.
  - unfold save_all_media_for_source. rewrite pending_schedule_other by done.
    cbn [tasks write_source emit set_sources].
    unfold index_source_task. apply pending_schedule_replace.
Qed.

(** X12. The after-save rule of a Source just created.  The directory check
    is enqueued without replacing anything, so that it adds to the pending
    checks of the Source; the image copy likewise, when the Source is not a
    playlist and copies channel images, and under the name of the
    directory check; the indexing job replaces the pending ones when
    [index_schedule] is positive and is neither enqueued nor cancelled
    otherwise; the reconciliation of the media ends as the only pending
    one. *)
Theorem source_creation_jobs instance w :
  let w' := source_post_save instance true w in
  pending "sync.tasks.check_source_directory_exists" [str (Source.pk instance)] (tasks w')
  = pending "sync.tasks.check_source_directory_exists" [str (Source.pk instance)] (tasks w)
    ++ [check_directory_job instance]
  /\ pending "sync.tasks.download_source_images" [str (Source.pk instance)] (tasks w')
     = pending "sync.tasks.download_source_images" [str (Source.pk instance)] (tasks w)
       ++ (if bool_decide (Source.source_type instance <> SOURCE_TYPE_YOUTUBE_PLAYLIST)
              && Source.copy_channel_images instance
           then [images_job instance] else [])
  /\ pending "sync.tasks.index_source_task" [str (Source.pk instance)] (tasks w')
     = (if 0 <? Source.index_schedule instance then [index_job instance]
        else pending "sync.tasks.index_source_task" [str (Source.pk instance)] (tasks w))
  /\ pending "sync.tasks.save_all_media_for_source" [str (Source.pk instance)] (tasks w')
     = [reconcile_job instance]
  /\ verbose_name (images_job instance) = verbose_name (check_directory_job instance).
Proof.
  cbv zeta. unfold source_post_save.
  set (w1 := check_source_directory_exists _ _ _ w).
  set (w2 := if _ && _ then _ else w1).
  set (w3 := if 0 <? _ then _ else w2).
  assert (Hcheck1 : pending "sync.tasks.check_source_directory_exists"
                      [str (Source.pk instance)] (tasks w1)
                    = pending "sync.tasks.check_source_directory_exists"
                        [str (Source.pk instance)] (tasks w)
                      ++ [check_directory_job instance]).
  { unfold w1, check_source_directory_exists, schedule. cbn [tasks emit set_tasks].
    rewrite pending_app. f_equal. apply (pending_own_job (check_directory_job instance)). }
  assert (Hother1 : forall kind,
            kind <> "sync.tasks.check_source_directory_exists" ->
            pending kind [str (Source.pk instance)] (tasks w1)
            = pending kind [str (Source.pk instance)] (tasks w)).
  { intros kind Hne. unfold w1, check_source_directory_exists.
    by apply pending_schedule_other. }
  assert (Himages2 : pending "sync.tasks.download_source_images"
                       [str (Source.pk instance)] (tasks w2)
                     = pending "sync.tasks.download_source_images"
                         [str (Source.pk instance)] (tasks w1)
                       ++ (if bool_decide (Source.source_type instance
                                           <> SOURCE_TYPE_YOUTUBE_PLAYLIST)
                              && Source.copy_channel_images instance
                           then [images_job instance] else [])).
  { unfold w2. case_if; [|by rewrite app_nil_r].
    unfold download_source_images, schedule. cbn [tasks emit set_tasks].
    rewrite pending_app. f_equal. apply (pending_own_job (images_job instance)). }
  assert (Hother2 : forall kind,
            kind <> "sync.tasks.download_source_images" ->
            pending kind [str (Source.pk instance)] (tasks w2)
            = pending kind [str (Source.pk instance)] (tasks w1)).
  { intros kind Hne. unfold w2. case_if; [|reflexivity].
    unfold download_source_images. by apply pending_schedule_other. }
  assert (Hindex3 : pending "sync.tasks.index_source_task"
                      [str (Source.pk instance)] (tasks w3)
                    = (if 0 <? Source.index_schedule instance then [index_job instance]
                       else pending "sync.tasks.index_source_task"
                              [str (Source.pk instance)] (tasks w2))).
  { unfold w3. case_if; [|reflexivity].
    unfold index_source_task. apply pending_schedule_replace. }
  assert (Hother3 : forall kind,
            kind <> "sync.tasks.index_source_task" ->
            pending kind [str (Source.pk instance)] (tasks w3)
            = pending kind [str (Source.pk instance)] (tasks w2)).
  { intros kind Hne. unfold w3. case_if; [|reflexivity].
    unfold index_source_task. rewrite pending_schedule_other by done.
    by apply pending_delete_task_by_source_other. }
  unfold save_all_media_for_source.
  split; [|split; [|split; [|split]]].
  - rewrite pending_schedule_other, Hother3, Hother2 by done. exact Hcheck1.
  - rewrite pending_schedule_other, Hother3, Himages2, Hother1 by done. reflexivity.
  - rewrite pending_schedule_other, Hindex3 by done.
    by rewrite Hother2, Hother1 by done.
  - apply pending_schedule_replace.
  - reflexivity.
Qed.

(** ** Deleting a Media item *)

Lemma media_pre_delete_frame instance w :
  medias (media_pre_delete instance w) = medias w
  /\ sources (media_pre_delete instance w) = sources w
  /\ mediaservers (media_pre_delete instance w) = mediaservers w.
Proof.
  unfold media_pre_delete.
  set (w1 := delete_task_by_media "sync.tasks.download_media" _ w).
  set (w2 := if truthy (thumbnail instance) then _ else w1).
  assert (medias w2 = medias w /\ sources w2 = sources w
          /\ mediaservers w2 = mediaservers w) as (Hm & Hs & Hms)
    by (unfold w2, w1; by case_if).
  clearbody w2. case_if; [|done].
  rewrite (surjective_pairing (splitext _)).
  match goal with |- context [foldl ?f w2 ?l] =>
    assert (forall w0, medias (foldl f w0 l) = medias w0
                       /\ sources (foldl f w0 l) = sources w0
                       /\ mediaservers (foldl f w0 l) = mediaservers w0) as Hfold
  end.
  { generalize (glob ((splitext
      (if truthy (Media.media_file instance)
       then default "" (Media.media_file instance)
       else default "" (Media.thumb instance))).1 +:+ ".*") w2).
    intros paths. induction paths as [|path paths IH]; intros w0; [done|].
    cbn [foldl]. destruct (IH (delete_file path w0)) as (-> & -> & ->). done. }
  destruct (Hfold w2) as (-> & -> & ->). done.
Qed.

Lemma media_pre_delete_tasks instance w :
  tasks (media_pre_delete instance w)
  = (if truthy (thumbnail instance)
     then drop_task "sync.tasks.download_media_thumbnail"
            [str (Media.pk instance); default "" (thumbnail instance)]
     else id)
      (drop_task "sync.tasks.download_media" [str (Media.pk instance)] (tasks w)).
Proof.
  unfold media_pre_delete.
  set (w1 := delete_task_by_media "sync.tasks.download_media" _ w).
  set (w2 := if truthy (thumbnail instance) then _ else w1).
  assert (tasks w2
          = (if truthy (thumbnail instance)
             then drop_task "sync.tasks.download_media_thumbnail"
                    [str (Media.pk instance); default "" (thumbnail instance)]
             else id)
              (drop_task "sync.tasks.download_media" [str (Media.pk instance)] (tasks w)))
    as <- by (unfold w2, w1; by case_if).
  clearbody w2. case_if; [|done].
  rewrite (surjective_pairing (splitext _)).
  match goal with |- context [foldl _ w2 ?l] =>
    by destruct (foldl_delete_file l w2) as (-> & _)
  end.
Qed.

Lemma foldl_rescan_frame servers w :
  let w' := foldl (fun w mediaserver =>
                     rescan_media_server (str (MediaServer.pk mediaserver))
                       priority_rescan_media_server
                       (format "Request media server rescan for "
                          (MediaServer.repr mediaserver)) true w) w servers in
  medias w' = medias w /\ sources w' = sources w /\ files w' = files w
  /\ mediaservers w' = mediaservers w
  /\ (forall kind args,
        kind <> "sync.tasks.rescan_media_server" ->
        pending kind args (tasks w') = pending kind args (tasks w)).
Proof.
  revert w. induction servers as [|server servers IH]; intros w; [done|].
  cbn [foldl]. cbv zeta in IH.
  destruct (IH (rescan_media_server (str (MediaServer.pk server))
                  priority_rescan_media_server
                  (format "Request media server rescan for "
                     (MediaServer.repr server)) true w))
    as (-> & -> & -> & -> & Hpending).
  repeat split; try done.
  intros kind args Hne. rewrite Hpending by done.
  unfold rescan_media_server. by apply pending_schedule_other.
Qed.

Lemma media_post_delete_frame instance w :
  medias (media_post_delete instance w) = medias w
  /\ sources (media_post_delete instance w) = sources w
  /\ files (media_post_delete instance w) = files w
  /\ mediaservers (media_post_delete instance w) = mediaservers w
  /\ (forall kind args,
        kind <> "sync.tasks.rescan_media_server" ->
        pending kind args (tasks (media_post_delete instance w))
        = pending kind args (tasks w)).
Proof. apply (foldl_rescan_frame (mediaservers w) w). Qed.

(** X13. Deleting a Media item removes its row and no other, and cancels its
    pending download job and no download job of another key.  The
    metadata-fetch jobs are not looked at: one that is pending for the item
    is still pending after the item is gone. *)
Theorem media_delete_releases_the_item instance w :
  let w' := Media_delete instance w in
  medias w' = delete (Media.pk instance) (medias w)
  /\ sources w' = sources w
  /\ pending "sync.tasks.download_media" [str (Media.pk instance)] (tasks w') = []
  /\ (forall args,
        args <> [str (Media.pk instance)] ->
        pending "sync.tasks.download_media" args (tasks w')
        = pending "sync.tasks.download_media" args (tasks w))
  /\ (forall args,
        pending "sync.tasks.download_media_metadata" args (tasks w')
        = pending "sync.tasks.download_media_metadata" args (tasks w)).
Proof.
  cbv zeta. unfold Media_delete.
  set (w1 := media_pre_delete instance w).
  set (w2 := emit _ (set_medias _ w1)).
  destruct (media_post_delete_frame instance w2) as (-> & -> & _ & _ & Hpending).
  destruct (media_pre_delete_frame instance w) as (Hm & Hs & _).
  assert (Htasks : tasks w2 = tasks w1) by reflexivity.
  assert (Hdrop : forall kind args,
            kind <> "sync.tasks.download_media_thumbnail" ->
            pending kind args (tasks w1)
            = pending kind args
                (drop_task "sync.tasks.download_media" [str (Media.pk instance)]
                   (tasks w))).
  { intros kind args Hne. unfold w1. rewrite media_pre_delete_tasks.
    case_if; [by apply pending_drop_other|reflexivity]. }
  split; [unfold w2, w1; cbn [medias emit set_medias]; by rewrite Hm|].
  split; [unfold w2, w1; cbn [sources emit set_medias]; exact Hs|].
  split; [|split].
  - rewrite Hpending, Htasks, Hdrop by done. apply pending_drop_task.
  - intros args Hne. rewrite Hpending, Htasks, Hdrop by done.
    by apply pending_drop_other_key.
  - intros args. rewrite Hpending, Htasks, Hdrop by done.
    by apply pending_drop_other.
Qed.

(** X14. The before-delete rule of Media never adds a file, and deletes
    none unless the owning Source has [delete_files_on_disk] set and the
    item has a media file or a thumbnail reference. *)
Theorem no_file_deleted_without_leave instance w :
  files (media_pre_delete instance w) ⊆ files w
  /\ (Source.delete_files_on_disk (Media.source instance) = false
      \/ (truthy (Media.media_file instance) = false
          /\ truthy (Media.thumb instance) = false) ->
      files (media_pre_delete instance w) = files w).
Proof.
  destruct (media_pre_delete_effects instance w) as (_ & _ & _ & ->).
  split; [apply subseteq_difference_l; reflexivity|].
  intros Hnone. unfold related_files.
  assert (Source.delete_files_on_disk (Media.source instance)
          && (truthy (Media.media_file instance) || truthy (Media.thumb instance))
          = false) as ->.
  { destruct Hnone as [-> | [-> ->]]; [reflexivity|]. by rewrite andb_false_r. }
  cbn [list_to_set]. apply difference_empty_L.
Qed.

(** ** Which files the before-delete rule deletes *)

Lemma split_path_nonempty p : split_path p <> [].
Proof.
  destruct p as [|c p]; cbn; [discriminate|].
  destruct (Ascii.eqb c "/"); [discriminate|].
  by destruct (split_path p).
Qed.

Lemma join_split_path p : join_path (split_path p) = p.
Proof.
  induction p as [|c p IH]; [reflexivity|].
  cbn [split_path]. destruct (Ascii.eqb c "/") eqn:Hsep.
  - apply Ascii.eqb_eq in Hsep as ->.
    pose proof (split_path_nonempty p) as Hne.
    cbn [join_path]. destruct (split_path p) as [|comp comps]; [done|].
    cbn [app]. by rewrite IH.
  - pose proof (split_path_nonempty p) as Hne.
    destruct (split_path p) as [|comp comps]; [done|].
    cbn [join_path] in *. destruct comps; cbn; by rewrite <- IH.
Qed.

Lemma split_path_inj p q : split_path p = split_path q -> p = q.
Proof. intros H. by rewrite <- (join_split_path p), H, join_split_path. Qed.

Lemma split_path_no_sep_components p :
  Forall (fun comp => no_sep comp = true) (split_path p).
Proof.
  induction p as [|c p IH]; cbn [split_path]; [by repeat constructor|].
  destruct (Ascii.eqb c "/") eqn:Hsep; [by constructor|].
  destruct (split_path p) as [|comp comps].
  { constructor; [|constructor]. unfold no_sep. cbn. by rewrite Hsep. }
  apply Forall_cons in IH as [Hcomp Hcomps]. constructor; [|done].
  unfold no_sep in *. cbn. by rewrite Hsep.
Qed.

Lemma no_sep_app a b : no_sep (a ++ b) = no_sep a && no_sep b.
Proof. unfold no_sep. rewrite existsb_app. by destruct (existsb _ a). Qed.

Lemma match_toks_literal_inv l ts name :
  match_toks ((TLit <$> l) ++ ts) name = true ->
  exists rest, name = l ++ rest /\ match_toks ts rest = true.
Proof.
  revert name. induction l as [|c l IH]; intros name Hmatch; [by exists name|].
  cbn in Hmatch. destruct name as [|c' name]; [discriminate|].
  apply andb_prop in Hmatch as [Hc Hmatch]. apply Ascii.eqb_eq in Hc as <-.
  destruct (IH name Hmatch) as (rest & -> & Hrest). by exists rest.
Qed.

Lemma component_match_stem_inv last name :
  has_magic last = false ->
  component_match (last ++ [("."%char); ("*"%char)]) name = true ->
  exists ext, name = last ++ "."%char :: ext.
Proof.
  intros Hlast. unfold component_match.
  assert (has_magic (last ++ [("."%char); ("*"%char)]) = true) as ->.
  { unfold has_magic. rewrite existsb_app. cbn. by rewrite orb_true_r. }
  intros [_ Hmatch]%andb_prop. unfold fnmatch in Hmatch.
  rewrite length_app in Hmatch. cbn [length] in Hmatch.
  rewrite (translate_literal last _ 2 Hlast) in Hmatch.
  apply match_toks_literal_inv in Hmatch as (rest & -> & Hrest).
  change (translate 2 [("."%char); ("*"%char)]) with [TLit "."; TStar] in Hrest.
  cbn [match_toks] in Hrest.
  destruct rest as [|c ext]; [discriminate|].
  apply andb_prop in Hrest as [Hdot _]. apply Ascii.eqb_eq in Hdot as <-.
  by exists ext.
Qed.

Lemma components_match_inv comps last_pat names :
  Forall (fun comp => has_magic comp = false) comps ->
  components_match (comps ++ [last_pat]) names = true ->
  exists last_name,
    names = comps ++ [last_name] /\ component_match last_pat last_name = true.
Proof.
  intros Hcomps. revert names.
  induction Hcomps as [|comp comps Hcomp _ IH]; intros names Hmatch.
  - cbn in Hmatch. destruct names as [|name names]; [discriminate|].
    apply andb_prop in Hmatch as [Hlast Hnil].
    destruct names; [|discriminate]. by exists name.
  - cbn in Hmatch. destruct names as [|name names]; [discriminate|].
    apply andb_prop in Hmatch as [Hhead Htail].
    unfold component_match in Hhead. rewrite Hcomp in Hhead.
    apply bool_decide_eq_true_1 in Hhead as <-.
    destruct (IH names Htail) as (last_name & -> & Hlast). by exists last_name.
Qed.

Lemma chars_of_list l : chars (string_of_list_ascii l) = l.
Proof. apply list_ascii_of_string_of_list_ascii. Qed.

Lemma chars_inj a b : chars a = chars b -> a = b.
Proof.
  intros H. rewrite <- (string_of_list_ascii_of_string a),
    <- (string_of_list_ascii_of_string b). unfold chars in H. by rewrite H.
Qed.

(** The pattern made of a stem without magic yields only files that are the
    stem, a dot and an extension without slash. *)
Lemma glob_literal_stem_inv stem path :
  has_magic (chars stem) = false ->
  glob_match (stem +:+ ".*") path = true ->
  exists ext, path = stem +:+ "." +:+ ext /\ no_sep (chars ext) = true.
Proof.
  intros Hstem. unfold glob_match. rewrite chars_append.
  destruct (split_path_app (chars stem)) as (comps & last & Hsplit & Hmagic).
  destruct (Hmagic Hstem) as [Hcomps Hlast].
  rewrite (Hsplit (chars ".*")) by reflexivity.
  intros Hmatch.
  apply (components_match_inv comps) in Hmatch as (last_name & Hnames & Hmatch);
    [|exact Hcomps].
  apply (component_match_stem_inv last) in Hmatch as (ext & ->); [|exact Hlast].
  assert (Hext : no_sep (chars "." ++ ext) = true).
  { pose proof (split_path_no_sep_components (chars path)) as Hall.
    rewrite Hnames in Hall. apply Forall_app in Hall as [_ Hall].
    apply Forall_cons in Hall as [Hall _].
    rewrite no_sep_app in Hall. by apply andb_prop in Hall as [_ ?]. }
  assert (Hpath : chars path = chars stem ++ chars "." ++ ext).
  { apply split_path_inj. rewrite Hnames. symmetry.
    apply (Hsplit (chars "." ++ ext) Hext). }
  exists (string_of_list_ascii ext). split.
  - apply chars_inj. by rewrite !chars_append, chars_of_list.
  - rewrite chars_of_list. rewrite no_sep_app in Hext.
    by apply andb_prop in Hext as [_ ?].
Qed.

(** X15. When the stem of the reference has no [*], [?] or [[], the
    before-delete rule of an item whose Source has [delete_files_on_disk]
    set deletes the files made of the stem, a dot and an extension without
    slash, and no other: a file is on disk after the rule exactly when it
    was before and is not of that form. *)
Theorem literal_stem_deletes_its_files_only instance w path :
  Source.delete_files_on_disk (Media.source instance) = true ->
  truthy (Media.media_file instance) || truthy (Media.thumb instance) = true ->
  let filepath :=
    if truthy (Media.media_file instance)
    then default "" (Media.media_file instance)
    else default "" (Media.thumb instance) in
  let stem := (splitext filepath).1 in
  has_magic (chars stem) = false ->
  (path ∈ files (media_pre_delete instance w)
   <-> path ∈ files w
       /\ ~ exists ext, path = stem +:+ "." +:+ ext /\ no_sep (chars ext) = true).
Proof.
  intros Hdelete Hreference filepath stem Hstem.
  destruct (media_pre_delete_effects instance w) as (_ & _ & _ & ->).
  rewrite elem_of_difference, elem_of_list_to_set, list_elem_of_In.
  unfold related_files. rewrite Hdelete, Hreference. cbn [andb].
  fold filepath. fold stem. unfold glob. rewrite filter_In.
  split.
  - intros [Hdisk Hkept]. split; [exact Hdisk|].
    intros (ext & -> & Hext). apply Hkept. split.
    + by apply list_elem_of_In, elem_of_elements.
    + by apply glob_literal_stem.
  - intros [Hdisk Hother]. split; [exact Hdisk|].
    intros [_ Hmatch]. apply Hother. by apply glob_literal_stem_inv.
Qed.

(** ** Deleting the Media of a Source *)

Lemma Media_delete_effects instance w :
  medias (Media_delete instance w) = delete (Media.pk instance) (medias w)
  /\ sources (Media_delete instance w) = sources w
  /\ mediaservers (Media_delete instance w) = mediaservers w
  /\ (forall args,
        pending "sync.tasks.download_media" args (tasks (Media_delete instance w))
        = if bool_decide (args = [str (Media.pk instance)]) then []
          else pending "sync.tasks.download_media" args (tasks w)).
Proof.
  unfold Media_delete.
  set (w1 := media_pre_delete instance w).
  set (w2 := emit _ (set_medias _ w1)).
  destruct (media_post_delete_frame instance w2) as (-> & -> & _ & -> & Hpending).
  destruct (media_pre_delete_frame instance w) as (Hm & Hs & Hms).
  split; [unfold w2, w1; cbn [medias emit set_medias]; by rewrite Hm|].
  split; [unfold w2, w1; cbn [sources emit set_medias]; exact Hs|].
  split; [unfold w2, w1; cbn [mediaservers emit set_medias]; exact Hms|].
  intros args. rewrite Hpending by done.
  assert (tasks w2 = tasks w1) as -> by reflexivity.
  unfold w1. rewrite media_pre_delete_tasks.
  assert (forall ts,
            pending "sync.tasks.download_media" args
              ((if truthy (thumbnail instance)
                then drop_task "sync.tasks.download_media_thumbnail"
                       [str (Media.pk instance); default "" (thumbnail instance)]
                else id) ts)
            = pending "sync.tasks.download_media" args ts) as ->.
  { intros ts. case_if; [by apply pending_drop_other|reflexivity]. }
  case_bool_decide as Hargs.
  - subst args. apply pending_drop_task.
  - by apply pending_drop_other_key.
Qed.

Lemma foldl_Media_delete_rows l w pk :
  medias (foldl (fun w media => Media_delete media w) w l) !! pk
  = if bool_decide (pk ∈ Media.pk <$> l) then None else medias w !! pk.
Proof.
  revert w. induction l as [|m l IH]; intros w; cbn [foldl].
  { rewrite bool_decide_eq_false_2; [reflexivity|]. apply not_elem_of_nil. }
  rewrite IH. destruct (Media_delete_effects m w) as (-> & _).
  rewrite fmap_cons.
  destruct (decide (pk = Media.pk m)) as [->|Hne].
  - rewrite lookup_delete_eq.
    rewrite (bool_decide_eq_true_2 (Media.pk m ∈ Media.pk m :: _)) by apply list_elem_of_here.
    by case_bool_decide.
  - rewrite lookup_delete_ne by done.
    repeat case_bool_decide; try reflexivity.
    + exfalso. by apply H0, list_elem_of_further.
    + exfalso. apply elem_of_cons in H0 as [?|?]; done.
Qed.

Lemma foldl_Media_delete_frame l w :
  sources (foldl (fun w media => Media_delete media w) w l) = sources w
  /\ mediaservers (foldl (fun w media => Media_delete media w) w l) = mediaservers w.
Proof.
  revert w. induction l as [|m l IH]; intros w; cbn [foldl]; [done|].
  destruct (IH (Media_delete m w)) as (-> & ->).
  by destruct (Media_delete_effects m w) as (_ & -> & -> & _).
Qed.

Lemma foldl_Media_delete_downloads l w args :
  pending "sync.tasks.download_media" args (tasks w) = []
  \/ args ∈ (fun m => [str (Media.pk m)]) <$> l ->
  pending "sync.tasks.download_media" args
    (tasks (foldl (fun w media => Media_delete media w) w l)) = [].
Proof.
  revert w. induction l as [|m l IH]; intros w; cbn [foldl].
  { intros [H|H]; [exact H|]. by apply elem_of_nil in H. }
  intros Hcase. apply IH.
  destruct (Media_delete_effects m w) as (_ & _ & _ & ->).
  case_bool_decide as Hargs; [by left|].
  destruct Hcase as [H|H]; [by left|].
  rewrite fmap_cons in H. apply elem_of_cons in H as [H|H]; [done|by right].
Qed.

Lemma elem_of_media_of instance w m :
  rows_keyed_by_pk w ->
  m ∈ media_of instance w
  <-> medias w !! Media.pk m = Some m
      /\ Source.pk (Media.source m) = Source.pk instance.
Proof.
  intros Hkeyed. unfold media_of.
  rewrite list_elem_of_In, filter_In, <- list_elem_of_In, bool_decide_eq_true.
  rewrite list_elem_of_fmap. split.
  - intros [([pk m'] & -> & Hin%elem_of_map_to_list) Hsource]. cbn in *.
    by rewrite (Hkeyed pk m' Hin).
  - intros [Hrow Hsource]. split; [|exact Hsource].
    exists (Media.pk m, m). split; [reflexivity|]. by apply elem_of_map_to_list.
Qed.

(** X16. The before-delete rule of a Source, on rows stored under their own
    ids: it removes the row of every Media item of the Source and of no
    other, touches no Source row, and leaves no pending download job for
    any of the items it removed. *)
Theorem source_pre_delete_removes_its_media instance w :
  rows_keyed_by_pk w ->
  let w' := source_pre_delete instance w in
  (forall pk,
     medias w' !! pk
     = match medias w !! pk with
       | Some m =>
           if bool_decide (Source.pk (Media.source m) = Source.pk instance)
           then None else Some m
       | None => None
       end)
  /\ sources w' = sources w
  /\ (forall pk m,
        medias w !! pk = Some m ->
        Source.pk (Media.source m) = Source.pk instance ->
        pending "sync.tasks.download_media" [str pk] (tasks w') = []).
Proof.
  intros Hkeyed. cbv zeta. unfold source_pre_delete. fold (media_of instance w).
  split; [|split].
  - intros pk. rewrite foldl_Media_delete_rows.
    destruct (medias w !! pk) as [m|] eqn:Hrow.
    + pose proof (Hkeyed pk m Hrow) as Hpk.
      destruct (decide (Source.pk (Media.source m) = Source.pk instance))
        as [Hsource|Hsource].
      * rewrite (bool_decide_eq_true_2 _ Hsource).
        rewrite bool_decide_eq_true_2; [reflexivity|].
        apply list_elem_of_fmap. exists m. split; [done|].
        apply elem_of_media_of; [done|]. by rewrite Hpk.
      * rewrite (bool_decide_eq_false_2 _ Hsource).
        rewrite bool_decide_eq_false_2; [reflexivity|].
        intros (m' & Hpk' & [Hrow' Hsource']%elem_of_media_of)%list_elem_of_fmap;
          [|done].
        rewrite <- Hpk', Hrow in Hrow'. by injection Hrow' as ->.
    + by case_bool_decide.
  - apply foldl_Media_delete_frame.
  - intros pk m Hrow Hsource. apply foldl_Media_delete_downloads. right.
    apply list_elem_of_fmap. exists m. split.
    + by rewrite (Hkeyed pk m Hrow).
    + apply elem_of_media_of; [done|]. by rewrite (Hkeyed pk m Hrow).
Qed.

Lemma Media_delete_rescans instance w mediaserver :
  NoDup (MediaServer.pk <$> mediaservers w) ->
  mediaserver ∈ mediaservers w ->
  pending "sync.tasks.rescan_media_server" [str (MediaServer.pk mediaserver)]
    (tasks (Media_delete instance w))
  = [rescan_job mediaserver].
Proof.
  intros Hnodup Hin. unfold Media_delete.
  set (w2 := emit _ (set_medias _ (media_pre_delete instance w))).
  assert (Hservers : mediaservers w2 = mediaservers w)
    by apply media_pre_delete_frame.
  destruct (media_post_delete_effects instance w2) as (_ & Hpending & _).
  apply Hpending; by rewrite Hservers.
Qed.

(** X17. The before-delete rule of a Source with no Media item leaves the
    world as it is.  With at least one item, and media servers of distinct
    ids, it leaves exactly one pending rescan job for each media server,
    however many items it deleted. *)
Theorem source_pre_delete_rescans_once instance w :
  (media_of instance w = [] -> source_pre_delete instance w = w)
  /\ (media_of instance w <> [] ->
      NoDup (MediaServer.pk <$> mediaservers w) ->
      forall mediaserver,
        mediaserver ∈ mediaservers w ->
        pending "sync.tasks.rescan_media_server" [str (MediaServer.pk mediaserver)]
          (tasks (source_pre_delete instance w))
        = [rescan_job mediaserver]).
Proof.
  unfold source_pre_delete. fold (media_of instance w).
  split; [by intros ->|].
  generalize (media_of instance w). intros l. revert w.
  induction l as [|m l IH]; intros w Hsome Hnodup mediaserver Hin; [done|].
  cbn [foldl]. destruct l as [|m' l].
  - by apply Media_delete_rescans.
  - destruct (Media_delete_effects m w) as (_ & _ & Hservers & _).
    apply IH; [done| |]; by rewrite Hservers.
Qed.

(** ** Permanent failure of a job, followed through the save *)

(** X18. When a metadata-fetch job fails for good and resolves to a Media
    item without metadata, the row of the item ends with [skip] set and is
    otherwise as it was, and the pending jobs are as they were; and every
    later run of the after-save rule on that row leaves the pending jobs
    as they are, so that no metadata-fetch job is enqueued for it again. *)
Theorem failed_metadata_fetch_parks_the_item fuel completed_task w obj :
  map_task_to_instance completed_task w = Some (IMedia obj) ->
  task_name completed_task = "sync.tasks.download_media_metadata" ->
  truthy (Media.metadata obj) = false ->
  exists w',
    task_task_failed (S fuel) completed_task w = Some w'
    /\ medias w' !! Media.pk obj = Some (Media.set_skip true obj)
    /\ tasks w' = tasks w
    /\ forall later,
         exists instance' later',
           media_post_save (S fuel) (Media.set_skip true obj) later
           = Some (instance', later')
           /\ Media.skip instance' = true
           /\ tasks later' = tasks later.
Proof.
  intros Hmap Hkind Hmetadata.
  assert (Hskip : forall w0,
            Media.skip (reconcile (Media.set_skip true obj) w0).1 = true).
  { intros w0. rewrite reconcile_skip. cbn [Media.metadata Media.set_skip].
    by rewrite Hmetadata, andb_false_r. }
  assert (Hrest : needs_save (Media.set_skip true obj) = false).
  { apply needs_save_settled; cbn [Media.metadata Media.set_skip]; rewrite Hmetadata;
      [by rewrite andb_false_r|discriminate]. }
  unfold task_task_failed. rewrite Hmap, (bool_decide_eq_true_2 _ Hkind).
  unfold Media_save.
  set (row := Media.set_skip true obj).
  assert (Hrow : medias (write_media row w) !! Media.pk obj = Some row)
    by apply lookup_insert_eq.
  assert (Hlater : forall later,
            exists instance' later',
              media_post_save (S fuel) row later = Some (instance', later')
              /\ Media.skip instance' = true /\ tasks later' = tasks later).
  { intros later. rewrite media_post_save_steps.
    destruct (Media.manual_skip row).
    - by eexists _, _.
    - eexists _, _. split; [apply f_equal, surjective_pairing|].
      split; [apply Hskip|]. by apply reconcile_skipped. }
  destruct (media_post_save_connected (write_media row w)).
  - rewrite media_post_save_steps.
    destruct (Media.manual_skip row).
    + eexists. split; [reflexivity|]. done.
    + rewrite (surjective_pairing (reconcile row (write_media row w))).
      eexists. split; [reflexivity|].
      split; [|split; [|exact Hlater]].
      * rewrite reconcile_medias. fold row in Hrest. by rewrite Hrest.
      * by destruct (reconcile_skipped row (write_media row w) (Hskip _)) as (_ & ->).
  - eexists. split; [reflexivity|]. done.
Qed.

(** X19. When a job fails for good and resolves to a Source stored under its
    id, the Source is saved with [has_failed] set and the reconciliation of
    its media is enqueued, replacing the pending one; nothing else is sent
    to the Task Registry, and the indexing jobs are as they were: the
    failure does not stop the recurring indexing of the Source. *)
Theorem failed_source_job_keeps_indexing fuel completed_task w obj :
  map_task_to_instance completed_task w = Some (ISource obj) ->
  sources w !! Source.pk obj = Some obj ->
  exists w',
    task_task_failed (S fuel) completed_task w = Some w'
    /\ issued w w'
       = [EvSaveSource (Source.set_has_failed true obj);
          EvEnqueue (reconcile_job obj) true]
    /\ (forall args,
          pending "sync.tasks.index_source_task" args (tasks w')
          = pending "sync.tasks.index_source_task" args (tasks w)).
Proof.
  intros Hmap Hrow. unfold task_task_failed. rewrite Hmap.
  eexists. split; [reflexivity|].
  destruct (Source_save_same_schedule (Source.set_has_failed true obj) obj w Hrow eq_refl)
    as (Hissued & _ & _ & Hindex).
  split; [exact Hissued|exact Hindex].
Qed.

(** ** What the after-save rule sends *)

(** X20. Whatever the item, every event of a run of the rule is about the
    item: the write of its row, a cancellation of one of its jobs, or the
    enqueueing of a one-shot job whose first argument is its id and which
    replaces the pending job of its key.  The rule deletes no file and no
    row, and enqueues nothing that could pile up. *)
Theorem rule_events_are_about_the_item fuel instance w :
  exists instance' w',
    media_post_save (S fuel) instance w = Some (instance', w')
    /\ trace w' = trace w ++ issued w w'
    /\ Forall (about_item (Media.pk instance)) (issued w w').
Proof.
  rewrite media_post_save_steps.
  destruct (Media.manual_skip instance).
  { eexists _, _. split; [reflexivity|]. unfold issued.
    rewrite drop_all, app_nil_r. by split. }
  eexists _, _. split; [apply f_equal, surjective_pairing|].
  split; [rewrite reconcile_issued; apply reconcile_trace|].
  rewrite reconcile_issued.
  assert (Hpk1 : Media.pk (recomputed instance) = Media.pk instance)
    by (by destruct (recomputed_frame instance) as (-> & _)).
  assert (Hpk3 : Media.pk (normalize_thumb (recomputed instance) w) = Media.pk instance)
    by (by destruct (normalize_thumb_frame (recomputed instance) w) as (-> & _)).
  repeat apply Forall_app_2.
  - unfold corrective_events. case_if; [|constructor].
    by repeat constructor.
  - unfold metadata_events. case_if; [|constructor].
    repeat constructor. cbn. by rewrite Hpk1.
  - unfold thumbnail_events. case_if; [|constructor].
    repeat constructor. cbn. by rewrite Hpk3.
  - unfold download_events. case_if; [|constructor].
    constructor; [unfold about_item; cbn [head]; by rewrite reconcile_pk|].
    constructor; [|constructor].
    unfold about_item, download_job. cbn [head task_args repeat].
    by rewrite reconcile_pk.
Qed.

(** ** [os.path.splitext] *)

Lemma substring_all s : substring 0 (String.length s) s = s.
Proof. induction s as [|c s IH]; [reflexivity|]. cbn. by rewrite IH. Qed.

Lemma substring_split s n :
  substring 0 n s +:+ substring n (String.length s - n) s = s.
Proof.
  revert n. induction s as [|c s IH]; intros n; [by destruct n|].
  destruct n as [|n].
  - change (String c (substring 0 (String.length s) s) = String c s).
    by rewrite substring_all.
  - change (String c (substring 0 n s +:+ substring n (String.length s - n) s)
            = String c s).
    by rewrite IH.
Qed.

Lemma rfind_from_lower c l i found :
  0 <= i -> -1 <= found -> -1 <= rfind_from c l i found.
Proof.
  revert i found. induction l as [|x l IH]; intros i found Hi Hfound; [done|].
  cbn [rfind_from]. apply IH; [lia|]. case_if; lia.
Qed.

Lemma append_empty s : s +:+ "" = s.
Proof.
  induction s as [|c s IH]; [reflexivity|].
  change (String c (s +:+ "") = String c s). by rewrite IH.
Qed.

(** X21. The stem and the extension the before-delete rule splits a path
    into make up the path again, whatever the path. *)
Theorem splitext_parts_make_up_the_path p :
  (splitext p).1 +:+ (splitext p).2 = p.
Proof.
  unfold splitext.
  destruct ((rfind "/" p <? rfind "." p) && _) eqn:Hsplit; cbn [fst snd].
  - apply andb_prop in Hsplit as [Hlt _]. apply Z.ltb_lt in Hlt.
    pose proof (rfind_from_lower "/" (chars p) 0 (-1)) as Hsep.
    fold (rfind "/" p) in Hsep.
    unfold slice. rewrite Z.sub_0_r, !Z2Nat.inj_sub, Nat2Z.id by lia.
    change (Z.to_nat 0) with 0%nat. apply substring_split.
  - apply append_empty.
Qed.

End Reconciler.

Lemma manual_skip_stops_the_rule_witness :
  Media.manual_skip pinned_media = true
  /\ media_post_save keep_all format_of_metadata thumbnail_of_metadata 1
       pinned_media (world_of pinned_media)
     = Some (pinned_media, world_of pinned_media).
Proof.
  split; [reflexivity|].
  apply (manual_skip_stops_the_rule keep_all format_of_metadata
           thumbnail_of_metadata 0 pinned_media (world_of pinned_media)).
  reflexivity.
Defined.

Lemma can_download_recomputed_witness :
  Media.manual_skip indexed_media = false
  /\ truthy (Media.metadata indexed_media) = true
  /\ has_valid_format format_of_metadata (after_filter keep_all indexed_media) = true
  /\ Media.can_download indexed_media = false
  /\ exists instance' w',
      media_post_save keep_all format_of_metadata thumbnail_of_metadata 1
        indexed_media (world_of indexed_media) = Some (instance', w')
      /\ Media.can_download instance' = true.
Proof.
  split; [reflexivity|]. split; [reflexivity|]. split; [reflexivity|].
  split; [reflexivity|].
  destruct (can_download_recomputed keep_all format_of_metadata
              thumbnail_of_metadata 0 indexed_media (world_of indexed_media) eq_refl)
    as (instance' & w' & Hrun & Hvalid & _).
  exists instance', w'. split; [exact Hrun|]. exact (Hvalid eq_refl eq_refl).
Defined.




(** C8. The rule deletes the files that the pattern made of the stem of the
    reference yields, and the stem is not quoted.  For an item whose media
    file is [/d/a [HD].mp4] the pattern is [/d/a [HD].*], in which [[HD]]
    stands for one of the letters H and D: the media file and the info file
    of the item stay on disk, and the media file [/d/a H.mp4] of another
    item is deleted. *)
Theorem bracketed_name_survives_delete :
  Source.delete_files_on_disk (Media.source bracket_media) = true
  /\ Media.media_file bracket_media = Some "/d/a [HD].mp4"
  /\ "/d/a [HD].mp4" ∈ files bracket_world
  /\ splitext "/d/a [HD].mp4" = ("/d/a [HD]", ".mp4")
  /\ glob "/d/a [HD].*" bracket_world = ["/d/a H.mp4"]
  /\ files (Media_delete no_thumbnail bracket_media bracket_world)
     = {[ "/d/a [HD].mp4"; "/d/a [HD].info.json" ]}.
Proof.
  split; [reflexivity|]. split; [reflexivity|].
  split; [by apply (bool_decide_unpack _)|].
  repeat split; vm_compute; reflexivity.
Qed.


(** C4 as stated fails on the priority: the metadata-fetch job the rule
    enqueues has the priority of the indexing job the Source rule
    enqueues, not one above it. *)
Lemma metadata_fetch_not_above_indexing :
  exists indexing metadata instance' w',
    enqueued_jobs (issued (world_of fresh_media)
                     (source_pre_save rescheduled_channel (world_of fresh_media)))
    = [indexing]
    /\ media_post_save keep_all format_of_metadata thumbnail_of_metadata 1
         fresh_media (world_of fresh_media) = Some (instance', w')
    /\ enqueued_jobs (issued (world_of fresh_media) w') = [metadata]
    /\ task_name indexing = "sync.tasks.index_source_task"
    /\ task_name metadata = "sync.tasks.download_media_metadata"
    /\ priority metadata = priority indexing
    /\ ~ (priority indexing < priority metadata).
Proof.
  eexists _, _, _, _.
  split; [vm_compute; reflexivity|].
  split; [vm_compute; reflexivity|].
  split; [vm_compute; reflexivity|].
  repeat split. vm_compute. discriminate.
Qed.

Lemma metadata_fetch_scheduling_witness :
  Media.manual_skip fresh_media = false
  /\ exists instance' w',
      media_post_save keep_all format_of_metadata thumbnail_of_metadata 1
        fresh_media (world_of fresh_media) = Some (instance', w')
      /\ commands_for "sync.tasks.download_media_metadata"
           (issued (world_of fresh_media) w')
         = [EvEnqueue (metadata_job fresh_media) true]
      /\ forall n, exists instance_n w_n,
           media_post_save_n keep_all format_of_metadata thumbnail_of_metadata 1 n
             fresh_media (world_of fresh_media) = Some (instance_n, w_n)
           /\ (pending_for "sync.tasks.download_media_metadata" fresh_media w_n <= 1)%nat.
Proof.
  split; [reflexivity|].
  destruct (metadata_fetch_scheduling keep_all format_of_metadata
              thumbnail_of_metadata 0 fresh_media (world_of fresh_media) eq_refl)
    as (instance' & w' & Hrun & Hcommands & _ & _ & _ & _ & _ & Hruns).
  exists instance', w'. split; [exact Hrun|]. split; [exact Hcommands|]. exact Hruns.
Defined.

Lemma download_scheduling_witness :
  Media.manual_skip lost_media = false
  /\ media_file_exists lost_media (world_of lost_media) = false
  /\ exists instance' w',
      media_post_save keep_all format_of_metadata no_thumbnail 1
        lost_media (world_of lost_media) = Some (instance', w')
      /\ Media.downloaded instance' = false
      /\ Media.media_file instance' = None
      /\ eligible instance' = true
      /\ pending "sync.tasks.download_media" ["m1"] (tasks w') = [download_job instance']
      /\ queue (download_job instance') = Some "s1"
      /\ priority (download_job instance') = 15.
Proof.
  split; [reflexivity|]. split; [reflexivity|].
  destruct (download_scheduling keep_all format_of_metadata no_thumbnail 0
              lost_media (world_of lost_media) eq_refl)
    as (instance' & w' & Hrun & Hnormal & Heligible & _).
  destruct (Hnormal eq_refl) as (Hdownloaded & Hfile).
  assert (Hinstance : instance'
                      = Media.set_media_file None (Media.set_downloaded false lost_media)).
  { assert (Some (instance', w')
            = Some (reconcile keep_all format_of_metadata no_thumbnail
                      lost_media (world_of lost_media))) as Heq
      by (rewrite <- Hrun; reflexivity).
    injection Heq as -> _. reflexivity. }
  assert (He : eligible instance' = true) by (rewrite Hinstance; reflexivity).
  destruct (Heligible He) as (_ & Hpending & Hqueue & _).
  exists instance', w'. repeat split; try assumption.
Defined.

(** C9 as stated fails. While the corrective write of one item is in
    progress, the save of another item writes its row and enqueues
    nothing, where the after-save rule would have enqueued the
    metadata-fetch job of that item. *)
Lemma save_during_corrective_write_runs_no_rule :
  let rule := media_post_save keep_all format_of_metadata thumbnail_of_metadata 1 in
  let window := during_corrective_write keep_all format_of_metadata indexed_media
                  (world_of indexed_media) false in
  needs_save keep_all format_of_metadata indexed_media = true
  /\ Media.pk other_media <> Media.pk indexed_media
  /\ (exists w',
        Media_save rule other_media window = Some (other_media, w')
        /\ issued window w' = [EvSaveMedia other_media])
  /\ (exists instance' w',
        rule other_media (write_media other_media window) = Some (instance', w')
        /\ issued window w'
           = [EvSaveMedia other_media; EvEnqueue (metadata_job other_media) true])
  /\ Media_save rule other_media window
     <> rule other_media (write_media other_media window).
Proof.
  cbv zeta. split; [reflexivity|]. split; [discriminate|].
  split; [eexists; split; [reflexivity|]; vm_compute; reflexivity|].
  split; [eexists _, _; split; [reflexivity|]; vm_compute; reflexivity|].
  intros Heq.
  apply (f_equal (fun r => match r with
                           | Some (_, w) => length (tasks w)
                           | None => 0%nat
                           end)) in Heq.
  vm_compute in Heq. discriminate.
Qed.

Lemma guard_disconnects_receiver_for_all_media_witness :
  Media.manual_skip indexed_media = false
  /\ needs_save keep_all format_of_metadata indexed_media = true
  /\ let window := during_corrective_write keep_all format_of_metadata indexed_media
                     (world_of indexed_media) true in
     Media_save (media_post_save keep_all format_of_metadata thumbnail_of_metadata 1)
       other_media window
     = Some (other_media, write_media other_media window).
Proof.
  split; [reflexivity|]. split; [reflexivity|].
  destruct (guard_disconnects_receiver_for_all_media keep_all format_of_metadata
              thumbnail_of_metadata 0 indexed_media (world_of indexed_media)
              eq_refl eq_refl) as (Hwindow & _).
  apply Hwindow.
Defined.

Lemma normalizations_are_not_persisted_witness :
  Media.manual_skip stale_media = false
  /\ thumb_file_exists stale_media (world_of stale_media) = false
  /\ media_file_exists stale_media (world_of stale_media) = false
  /\ medias (world_of stale_media) !! Media.pk stale_media = Some stale_media
  /\ exists instance' w',
      media_post_save keep_all format_of_metadata no_thumbnail 1
        stale_media (world_of stale_media) = Some (instance', w')
      /\ Media.thumb instance' = None
      /\ Media.media_file instance' = None
      /\ Media.downloaded instance' = false
      /\ exists row,
          medias w' !! Media.pk stale_media = Some row
          /\ Media.thumb row = Some "/d/clip.jpg"
          /\ Media.media_file row = Some "/d/clip.mp4"
          /\ Media.downloaded row = true.
Proof.
  split; [reflexivity|]. split; [reflexivity|]. split; [reflexivity|].
  split; [reflexivity|].
  destruct (normalizations_are_not_persisted keep_all format_of_metadata no_thumbnail 0
              stale_media (world_of stale_media) eq_refl)
    as (instance' & w' & Hrun & Hthumb & Hfile & _ & Hrow).
  destruct (Hfile eq_refl) as (Hmedia_file & Hdownloaded).
  destruct (Hrow eq_refl) as (row & Hlookup & Hrow_thumb & Hrow_file & Hrow_downloaded).
  exists instance', w'. split; [exact Hrun|].
  split; [exact (Hthumb eq_refl)|]. split; [exact Hmedia_file|].
  split; [exact Hdownloaded|].
  exists row. repeat split; assumption.
Defined.

(** ** Checks on concrete inputs *)

Example splitext_plain :
  splitext "/downloads/a.b/clip.info.json" = ("/downloads/a.b/clip.info", ".json").
Proof. reflexivity. Qed.

Example splitext_hidden : splitext "/downloads/.hidden" = ("/downloads/.hidden", "").
Proof. reflexivity. Qed.

Example splitext_no_ext : splitext "/downloads/a.b/clip" = ("/downloads/a.b/clip", "").
Proof. reflexivity. Qed.

Example glob_siblings :
  list_to_set (glob "/d/clip.*" library_world)
  = ({[ "/d/clip.mp4"; "/d/clip.en.vtt"; "/d/clip.info.json" ]} : gset string).
Proof. vm_compute. reflexivity. Qed.

(** Scenario A: a Source created with indexing disabled and no image copy
    gets a directory check and a reconciliation of its media, nothing else. *)
Example scenario_source_created :
  task_name <$> enqueued_jobs
                  (issued (world_of fresh_media)
                     (Source_save new_channel (world_of fresh_media)))
  = ["sync.tasks.check_source_directory_exists";
     "sync.tasks.save_all_media_for_source"].
Proof. vm_compute. reflexivity. Qed.

(** Scenario B: a changed schedule cancels the indexing job and enqueues
    one with the new interval. *)
Example scenario_schedule_changed :
  registry_commands
    (issued (world_of fresh_media)
       (source_pre_save rescheduled_channel (world_of fresh_media)))
  = [EvCancel "sync.tasks.index_source_task" ["s1"];
     EvEnqueue (index_job rescheduled_channel) true]
  /\ repeat (index_job rescheduled_channel) = 7200.
Proof. split; vm_compute; reflexivity. Qed.

(** Scenario E: when the metadata-fetch job of an item fails for good the
    item is persisted with [skip] set, and no job is enqueued. *)
Example scenario_metadata_failed :
  exists w',
    task_task_failed keep_all format_of_metadata thumbnail_of_metadata 1
      metadata_task (world_of fresh_media) = Some w'
    /\ Media.skip <$> medias w' !! "m1" = Some true
    /\ enqueued_jobs (issued (world_of fresh_media) w') = [].
Proof. eexists. split; [reflexivity|]. split; vm_compute; reflexivity. Qed.

(** Scenario F: deleting a downloaded item of a Source that deletes files
    removes the media file and its siblings, cancels its jobs and asks
    each media server for a rescan. *)
Example scenario_media_deleted :
  let w' := Media_delete thumbnail_of_metadata downloaded_media library_world in
  files w' = {[ "/d/other.mp4" ]}
  /\ tasks w' = [rescan_job plex; rescan_job jellyfin]
  /\ medias w' = ∅.
Proof. cbv zeta. repeat split; vm_compute; reflexivity. Qed.

Lemma skip_follows_the_filter_witness :
  Media.manual_skip indexed_media = false
  /\ Media.downloaded indexed_media = false
  /\ truthy (Media.metadata indexed_media) = true
  /\ Media.skip indexed_media = false
  /\ exists instance' w',
      media_post_save skip_all format_of_metadata no_thumbnail 1
        indexed_media (world_of indexed_media) = Some (instance', w')
      /\ Media.skip instance' = true.
Proof.
  repeat (split; [reflexivity|]).
  destruct (skip_follows_the_filter skip_all format_of_metadata no_thumbnail 0
              indexed_media (world_of indexed_media) eq_refl)
    as (instance' & w' & Hrun & Hfilter & _).
  exists instance', w'. split; [exact Hrun|]. exact (Hfilter eq_refl eq_refl).
Defined.

Lemma row_written_iff_flags_changed_witness :
  Media.manual_skip fresh_media = false
  /\ exists instance' w',
      media_post_save keep_all format_of_metadata thumbnail_of_metadata 1
        fresh_media (world_of fresh_media) = Some (instance', w')
      /\ (media_rows_written (issued (world_of fresh_media) w') = []
          <-> Media.skip instance' = Media.skip fresh_media
              /\ Media.can_download instance' = Media.can_download fresh_media).
Proof.
  split; [reflexivity|].
  apply (row_written_iff_flags_changed keep_all format_of_metadata
           thumbnail_of_metadata 0 fresh_media (world_of fresh_media)).
  reflexivity.
Defined.

Lemma thumbnail_scheduling_witness :
  Media.manual_skip indexed_media = false
  /\ exists instance' w',
      media_post_save keep_all format_of_metadata thumbnail_of_metadata 1
        indexed_media (world_of indexed_media) = Some (instance', w')
      /\ enqueued_jobs
           (commands_for "sync.tasks.download_media_thumbnail"
              (issued (world_of indexed_media) w'))
         = [mkTask "sync.tasks.download_media_thumbnail" ["m1"; "https://i/1.jpg"]
                   (Some "s1") 10 0
                   (format "Downloading thumbnail for " "clip")].
Proof.
  split; [reflexivity|].
  destruct (thumbnail_scheduling keep_all format_of_metadata thumbnail_of_metadata 0
              indexed_media (world_of indexed_media) eq_refl)
    as (instance' & w' & Hrun & _ & Hcommands & _).
  exists instance', w'. split; [exact Hrun|].
  rewrite Hcommands.
  assert (Some (instance', w')
          = Some (reconcile keep_all format_of_metadata thumbnail_of_metadata
                    indexed_media (world_of indexed_media))) as Heq
    by (rewrite <- Hrun; reflexivity).
  injection Heq as -> _. reflexivity.
Defined.

Lemma skipped_item_gets_no_job_witness :
  exists instance' w',
    media_post_save skip_all format_of_metadata thumbnail_of_metadata 1
      indexed_media (world_of indexed_media) = Some (instance', w')
    /\ Media.skip instance' = true
    /\ registry_commands (issued (world_of indexed_media) w') = []
    /\ tasks w' = tasks (world_of indexed_media).
Proof.
  destruct (skipped_item_gets_no_job skip_all format_of_metadata thumbnail_of_metadata 0
              indexed_media (world_of indexed_media))
    as (instance' & w' & Hrun & Hnone).
  assert (Hskip : Media.skip instance' = true).
  { assert (Some (instance', w')
            = Some (reconcile skip_all format_of_metadata thumbnail_of_metadata
                      indexed_media (world_of indexed_media))) as Heq
      by (rewrite <- Hrun; reflexivity).
    injection Heq as -> _. reflexivity. }
  exists instance', w'. split; [exact Hrun|]. split; [exact Hskip|].
  exact (Hnone Hskip).
Defined.

Lemma references_point_to_files_witness :
  Media.manual_skip stale_media = false
  /\ exists instance' w',
      media_post_save keep_all format_of_metadata no_thumbnail 1
        stale_media (world_of stale_media) = Some (instance', w')
      /\ thumb_file_exists instance' w' = truthy (Media.thumb instance')
      /\ media_file_exists instance' w' = truthy (Media.media_file instance')
      /\ (Media.downloaded instance' = true -> media_file_exists instance' w' = true).
Proof.
  split; [reflexivity|].
  apply (references_point_to_files keep_all format_of_metadata no_thumbnail 0
           stale_media (world_of stale_media)).
  reflexivity.
Defined.

Lemma no_download_unless_eligible_witness :
  Media.manual_skip downloaded_media = false
  /\ exists instance' w',
      media_post_save keep_all format_of_metadata no_thumbnail 1
        downloaded_media library_world = Some (instance', w')
      /\ Media.downloaded instance' = true
      /\ commands_for "sync.tasks.download_media" (issued library_world w') = []
      /\ pending "sync.tasks.download_media" ["m1"] (tasks w') = [download_task].
Proof.
  split; [reflexivity|].
  destruct (no_download_unless_eligible keep_all format_of_metadata no_thumbnail 0
              downloaded_media library_world eq_refl)
    as (instance' & w' & Hrun & Hnone).
  assert (Hdownloaded : Media.downloaded instance' = true).
  { assert (Some (instance', w')
            = Some (reconcile keep_all format_of_metadata no_thumbnail
                      downloaded_media library_world)) as Heq
      by (rewrite <- Hrun; reflexivity).
    injection Heq as -> _. vm_compute. reflexivity. }
  destruct (Hnone (or_introl Hdownloaded)) as (Hcommands & Hpending).
  exists instance', w'. split; [exact Hrun|]. split; [exact Hdownloaded|].
  split; [exact Hcommands|]. etransitivity; [exact Hpending|reflexivity].
Defined.

Lemma saved_row_agrees_with_instance_witness :
  media_post_save_connected (world_of fresh_media) = true
  /\ exists instance' w',
      Media_save (media_post_save keep_all format_of_metadata thumbnail_of_metadata 1)
        indexed_media (world_of fresh_media) = Some (instance', w')
      /\ Media.can_download indexed_media = false
      /\ Media.can_download <$> medias w' !! "m1" = Some true.
Proof.
  split; [reflexivity|].
  destruct (saved_row_agrees_with_instance keep_all format_of_metadata
              thumbnail_of_metadata 0 indexed_media (world_of fresh_media) eq_refl)
    as (instance' & w' & Hrun & Hrow).
  exists instance', w'. split; [exact Hrun|]. split; [reflexivity|].
  assert (Hcan : Media.can_download instance' = true).
  { assert (Some (instance', w')
            = Media_save (media_post_save keep_all format_of_metadata
                            thumbnail_of_metadata 1)
                indexed_media (world_of fresh_media)) as Heq by (by rewrite Hrun).
    vm_compute in Heq. by injection Heq as -> _. }
  change (medias w' !! "m1") with (medias w' !! Media.pk indexed_media).
  rewrite Hrow. cbn. by rewrite Hcan.
Defined.

Lemma rule_settles_in_two_runs_witness :
  (forall a b, same_inputs a b -> skip_all a = skip_all b)
  /\ (forall a b, same_inputs a b -> format_of_metadata a = format_of_metadata b)
  /\ exists instance2 w2 w3,
      media_post_save_n skip_all format_of_metadata no_thumbnail 1 2
        lost_media (world_of lost_media) = Some (instance2, w2)
      /\ media_post_save skip_all format_of_metadata no_thumbnail 1 instance2 w2
         = Some (instance2, w3)
      /\ media_rows_written (issued w2 w3) = [].
Proof.
  assert (Hfilter : forall a b, same_inputs a b -> skip_all a = skip_all b)
    by reflexivity.
  assert (Hformat : forall a b,
             same_inputs a b -> format_of_metadata a = format_of_metadata b).
  { intros a b (_&_&_&_&Hmd&_). unfold format_of_metadata. by rewrite Hmd. }
  split; [exact Hfilter|]. split; [exact Hformat|].
  apply (rule_settles_in_two_runs skip_all format_of_metadata no_thumbnail 0
           lost_media (world_of lost_media) Hfilter Hformat).
Defined.

Lemma source_update_only_reconciles_witness :
  sources (world_of fresh_media) !! Source.pk channel = Some channel
  /\ Source.index_schedule channel = Source.index_schedule channel
  /\ issued (world_of fresh_media) (Source_save channel (world_of fresh_media))
     = [EvSaveSource channel; EvEnqueue (reconcile_job channel) true].
Proof.
  split; [reflexivity|]. split; [reflexivity|].
  destruct (source_update_only_reconciles channel channel (world_of fresh_media)
              eq_refl eq_refl) as (Hissued & _).
  exact Hissued.
Defined.

Lemma source_update_reschedules_witness :
  sources (world_of fresh_media) !! Source.pk rescheduled_channel = Some channel
  /\ Source.index_schedule channel <> Source.index_schedule rescheduled_channel
  /\ pending "sync.tasks.index_source_task" ["s1"]
       (tasks (Source_save rescheduled_channel (world_of fresh_media)))
     = [index_job rescheduled_channel].
Proof.
  assert (Hchanged : Source.index_schedule channel
                     <> Source.index_schedule rescheduled_channel) by discriminate.
  split; [reflexivity|]. split; [exact Hchanged|].
  destruct (source_update_reschedules rescheduled_channel channel (world_of fresh_media)
              eq_refl Hchanged) as (_ & Hpending & _).
  exact Hpending.
Defined.

Lemma no_file_deleted_without_leave_witness :
  Source.delete_files_on_disk new_channel = false
  /\ files (media_pre_delete no_thumbnail
              (Media.mk "m1" new_channel "clip" "https://v/1" None false false false true
                        (Some "/d/clip.mp4") None)
              library_world)
     = files library_world.
Proof.
  split; [reflexivity|].
  apply (no_file_deleted_without_leave no_thumbnail
           (Media.mk "m1" new_channel "clip" "https://v/1" None false false false true
                     (Some "/d/clip.mp4") None)
           library_world).
  left. reflexivity.
Defined.

Lemma literal_stem_deletes_its_files_only_witness :
  Source.delete_files_on_disk (Media.source downloaded_media) = true
  /\ truthy (Media.media_file downloaded_media)
     || truthy (Media.thumb downloaded_media) = true
  /\ has_magic (chars "/d/clip") = false
  /\ ("/d/other.mp4" ∈ files (media_pre_delete thumbnail_of_metadata
                                downloaded_media library_world)
      <-> "/d/other.mp4" ∈ files library_world
          /\ ~ exists ext,
                 "/d/other.mp4" = "/d/clip" +:+ "." +:+ ext
                 /\ no_sep (chars ext) = true).
Proof.
  split; [reflexivity|]. split; [reflexivity|]. split; [reflexivity|].
  apply (literal_stem_deletes_its_files_only thumbnail_of_metadata
           downloaded_media library_world "/d/other.mp4");
    reflexivity.
Defined.

Lemma source_pre_delete_removes_its_media_witness :
  rows_keyed_by_pk library_world
  /\ medias (source_pre_delete thumbnail_of_metadata channel library_world) !! "m1" = None
  /\ pending "sync.tasks.download_media" ["m1"]
       (tasks (source_pre_delete thumbnail_of_metadata channel library_world)) = [].
Proof.
  assert (Hkeyed : rows_keyed_by_pk library_world).
  { intros pk m Hrow. unfold library_world in Hrow. cbn [medias] in Hrow.
    apply lookup_singleton_Some in Hrow as [<- <-]. reflexivity. }
  split; [exact Hkeyed|].
  destruct (source_pre_delete_removes_its_media thumbnail_of_metadata channel
              library_world Hkeyed) as (Hrows & _ & Hjobs).
  split.
  - rewrite (Hrows "m1"). reflexivity.
  - apply (Hjobs "m1" downloaded_media); reflexivity.
Defined.

Lemma source_pre_delete_rescans_once_witness :
  media_of channel library_world <> []
  /\ NoDup (MediaServer.pk <$> mediaservers library_world)
  /\ plex ∈ mediaservers library_world
  /\ pending "sync.tasks.rescan_media_server" [str (MediaServer.pk plex)]
       (tasks (source_pre_delete thumbnail_of_metadata channel library_world))
     = [rescan_job plex].
Proof.
  assert (Hsome : media_of channel library_world <> []) by (vm_compute; discriminate).
  assert (Hnodup : NoDup (MediaServer.pk <$> mediaservers library_world)).
  { apply (bool_decide_unpack _). reflexivity. }
  assert (Hin : plex ∈ mediaservers library_world) by apply list_elem_of_here.
  split; [exact Hsome|]. split; [exact Hnodup|]. split; [exact Hin|].
  destruct (source_pre_delete_rescans_once thumbnail_of_metadata channel library_world)
    as (_ & Hrescan).
  exact (Hrescan Hsome Hnodup plex Hin).
Defined.

Lemma failed_metadata_fetch_parks_the_item_witness :
  map_task_to_instance metadata_task (world_of fresh_media) = Some (IMedia fresh_media)
  /\ task_name metadata_task = "sync.tasks.download_media_metadata"
  /\ truthy (Media.metadata fresh_media) = false
  /\ exists w',
      task_task_failed keep_all format_of_metadata thumbnail_of_metadata 1
        metadata_task (world_of fresh_media) = Some w'
      /\ medias w' !! "m1" = Some (Media.set_skip true fresh_media)
      /\ tasks w' = [].
Proof.
  split; [reflexivity|]. split; [reflexivity|]. split; [reflexivity|].
  destruct (failed_metadata_fetch_parks_the_item keep_all format_of_metadata
              thumbnail_of_metadata 0 metadata_task (world_of fresh_media) fresh_media
              eq_refl eq_refl eq_refl) as (w' & Hrun & Hrow & Htasks & _).
  exists w'. split; [exact Hrun|]. split; [exact Hrow|exact Htasks].
Defined.

Lemma failed_source_job_keeps_indexing_witness :
  map_task_to_instance check_directory_task (world_of fresh_media) = Some (ISource channel)
  /\ sources (world_of fresh_media) !! Source.pk channel = Some channel
  /\ exists w',
      task_task_failed keep_all format_of_metadata thumbnail_of_metadata 1
        check_directory_task (world_of fresh_media) = Some w'
      /\ issued (world_of fresh_media) w'
         = [EvSaveSource (Source.set_has_failed true channel);
            EvEnqueue (reconcile_job channel) true].
Proof.
  split; [reflexivity|]. split; [reflexivity|].
  destruct (failed_source_job_keeps_indexing keep_all format_of_metadata
              thumbnail_of_metadata 0 check_directory_task (world_of fresh_media) channel
              eq_refl eq_refl) as (w' & Hrun & Hissued & _).
  exists w'. split; [exact Hrun|exact Hissued].
Defined.
